(** * A 3D model viewer: the viewer scripts, embedded and verified

    The repository holds three iterations of one browser script built on
    three.js:

    - [ListControls]: the first script of [src/main.js] (per-item control
      buttons, a persistent per-mesh [userData.visible] flag, clipping
      planes taken as they are configured);
    - [StaticControls]: the second script of [src/main.js] (one static set
      of buttons, clipping planes shifted by the centre of the selected
      mesh);
    - [Core]: [src/unnamed/part_000], the "3D Medical Viewer Core Script".

    JavaScript numbers are idealised as real numbers.  JavaScript objects
    that are shared and mutated ([THREE.Mesh] and [THREE.Plane] objects)
    live in stores and are named by their address; the registry array
    [meshes], the DOM list [objects-list] and the materials hold addresses.
    Icons, CSS classes, tooltips and the mirrored value of the opacity
    widgets are presentation only and are left out. *)

From Stdlib Require Import Reals Lra Lia String Ascii List DecimalString.
From stdpp Require Import base list.
Import ListNotations.

#[local] Open Scope R_scope.
#[local] Open Scope string_scope.
#[local] Open Scope list_scope.

(** ** The part of three.js the scripts rely on *)

Record Vector3 := mkVector3 { vx : R; vy : R; vz : R }.

Definition Vector3_zero : Vector3 := mkVector3 0 0 0.

Definition Vector3_dot (a b : Vector3) : R :=
  vx a * vx b + vy a * vy b + vz a * vz b.

Definition Vector3_add (a b : Vector3) : Vector3 :=
  mkVector3 (vx a + vx b) (vy a + vy b) (vz a + vz b).

Definition Vector3_sub (a b : Vector3) : Vector3 :=
  mkVector3 (vx a - vx b) (vy a - vy b) (vz a - vz b).

Definition Vector3_multiplyScalar (a : Vector3) (s : R) : Vector3 :=
  mkVector3 (vx a * s) (vy a * s) (vz a * s).

Definition Vector3_min (a b : Vector3) : Vector3 :=
  mkVector3 (Rmin (vx a) (vx b)) (Rmin (vy a) (vy b)) (Rmin (vz a) (vz b)).

Definition Vector3_max (a b : Vector3) : Vector3 :=
  mkVector3 (Rmax (vx a) (vx b)) (Rmax (vy a) (vy b)) (Rmax (vz a) (vz b)).

Definition Vector3_distanceTo (a b : Vector3) : R :=
  sqrt ((vx a - vx b) * (vx a - vx b) + (vy a - vy b) * (vy a - vy b)
        + (vz a - vz b) * (vz a - vz b)).

(** [THREE.Plane]: a normal and a constant (the offset). *)
Record Plane := mkPlane { normal : Vector3; constant : R }.

Definition Plane_setFromNormalAndCoplanarPoint (n point : Vector3) : Plane :=
  mkPlane n (- Vector3_dot point n).

(** [THREE.Box3]: [None] is the empty box of [makeEmpty], [Some (min, max)]
    a box with its two corners. *)
Definition Box3 : Type := option (Vector3 * Vector3).

Definition Box3_empty : Box3 := None.

Definition Box3_expandByPoint (b : Box3) (p : Vector3) : Box3 :=
  match b with
  | None => Some (p, p)
  | Some (mn, mx) => Some (Vector3_min mn p, Vector3_max mx p)
  end.

Definition Box3_setFromPoints (pts : list Vector3) : Box3 :=
  fold_left Box3_expandByPoint pts Box3_empty.

Definition Box3_union (a b : Box3) : Box3 :=
  match a, b with
  | None, _ => b
  | _, None => a
  | Some (mn, mx), Some (mn', mx') =>
      Some (Vector3_min mn mn', Vector3_max mx mx')
  end.

Definition Box3_getSize (b : Box3) : Vector3 :=
  match b with
  | None => Vector3_zero
  | Some (mn, mx) => Vector3_sub mx mn
  end.

Definition Box3_getCenter (b : Box3) : Vector3 :=
  match b with
  | None => Vector3_zero
  | Some (mn, mx) => Vector3_multiplyScalar (Vector3_add mn mx) 0.5
  end.

(** [Math.max] of three numbers. *)
Definition Math_max3 (a b c : R) : R := Rmax (Rmax a b) c.

(** ** JavaScript values and strings *)

(** A property that holds [undefined] ([None]) or a boolean. *)
Definition jsbool : Type := option bool.

Definition truthy (v : jsbool) : bool :=
  match v with Some true => true | _ => false end.

(** [!v] *)
Definition js_not (v : jsbool) : jsbool := Some (negb (truthy v)).

(** [s || t] on strings: the empty string is falsy. *)
Definition str_or (s t : string) : string :=
  match s with EmptyString => t | _ => s end.

(** [!s] for a variable that holds [null] or a string. *)
Definition falsy_id (s : option string) : bool :=
  match s with
  | None => true
  | Some EmptyString => true
  | Some _ => false
  end.

(** [a === b] where [a] is a string and [b] is [null] or a string. *)
Definition id_eqb (a : string) (b : option string) : bool :=
  match b with Some s => String.eqb a s | None => false end.

(** Decimal rendering of a number inside a template string. *)
Definition dec (n : nat) : string := NilEmpty.string_of_uint (Nat.to_uint n).

(** [s.replace(pat, rep)] with a string pattern: the first occurrence only. *)
Fixpoint String_replace (pat rep s : string) : string :=
  if String.prefix pat s
  then rep ++ substring (String.length pat) (String.length s - String.length pat) s
  else match s with
       | EmptyString => EmptyString
       | String c s' => String c (String_replace pat rep s')
       end.

(** [path.split('/').pop()]: what follows the last slash. *)
Fixpoint last_segment_from (acc s : string) : string :=
  match s with
  | EmptyString => acc
  | String c s' =>
      if Ascii.eqb c "/"%char then last_segment_from EmptyString s'
      else last_segment_from (acc ++ String c EmptyString) s'
  end.

Definition split_pop (path : string) : string := last_segment_from EmptyString path.

(** ** The data of the viewer *)

(** Addresses of [THREE.Mesh] and of [THREE.Plane] objects. *)
Abbreviation mref := nat (only parsing).
Abbreviation pref := nat (only parsing).

Inductive Side := FrontSide | BackSide | DoubleSide.

(** [THREE.MeshPhongMaterial].  Each mesh owns its material, so the material
    is held in the mesh; [mat_clippingPlanes] is the array of plane objects
    (three.js's default [null] is the empty array here). *)
Record Material := mkMaterial {
  mat_color : N;
  mat_shininess : R;
  mat_transparent : bool;
  mat_opacity : R;
  mat_side : Side;
  mat_clippingPlanes : list pref;
  mat_needsUpdate : bool
}.

(** The position attribute of a parsed STL geometry. *)
Definition Geometry : Type := list Vector3.

Record Mesh := mkMesh {
  mesh_name : string;
  mesh_geometry : Geometry;
  mesh_material : Material;
  mesh_visible : jsbool;
  mesh_userData_visible : jsbool
}.

(** An element of the registry array [meshes]: [{ id, mesh }] or
    [{ id, mesh, slider }]. *)
Record Entry := mkEntry {
  entry_id : string;
  entry_mesh : mref;
  entry_slider : bool
}.

(** A child of the DOM element [objects-list]; its listeners are closed over
    [id] and [mesh]. *)
Record Item := mkItem {
  item_id : string;
  item_title : string;
  item_mesh : mref
}.

Inductive Axis := ax_x | ax_y | ax_z.

#[global] Instance Axis_eq_dec : EqDecision Axis.
Proof. solve_decision. Defined.

Record AxisState := mkAxisState { enabled : bool; plane : pref }.

Record Clipping := mkClipping {
  clip_x : AxisState;
  clip_y : AxisState;
  clip_z : AxisState
}.

Definition clip_get (a : Axis) (c : Clipping) : AxisState :=
  match a with ax_x => clip_x c | ax_y => clip_y c | ax_z => clip_z c end.

Definition clip_set (a : Axis) (s : AxisState) (c : Clipping) : Clipping :=
  match a with
  | ax_x => mkClipping s (clip_y c) (clip_z c)
  | ax_y => mkClipping (clip_x c) s (clip_z c)
  | ax_z => mkClipping (clip_x c) (clip_y c) s
  end.

(** The values of the three range inputs [slice-x-pos], [slice-y-pos] and
    [slice-z-pos]. *)
Record SlicePos := mkSlicePos { pos_x : R; pos_y : R; pos_z : R }.

Definition pos_get (a : Axis) (p : SlicePos) : R :=
  match a with ax_x => pos_x p | ax_y => pos_y p | ax_z => pos_z p end.

Definition pos_set (a : Axis) (v : R) (p : SlicePos) : SlicePos :=
  match a with
  | ax_x => mkSlicePos v (pos_y p) (pos_z p)
  | ax_y => mkSlicePos (pos_x p) v (pos_z p)
  | ax_z => mkSlicePos (pos_x p) (pos_y p) v
  end.

(** The global variables of a script, the two object stores and the DOM
    state the handlers read. *)
Record State := mkState {
  heap : list Mesh;
  planes : list Plane;
  meshes : list Entry;
  selectedMeshId : option string;
  clipping : Clipping;
  slice_pos : SlicePos;
  camera_position : Vector3;
  controls_target : Vector3;
  objects_list : list Item
}.

Definition set_heap (h : list Mesh) (st : State) : State :=
  mkState h (planes st) (meshes st) (selectedMeshId st) (clipping st)
    (slice_pos st) (camera_position st) (controls_target st) (objects_list st).

Definition set_planes (p : list Plane) (st : State) : State :=
  mkState (heap st) p (meshes st) (selectedMeshId st) (clipping st)
    (slice_pos st) (camera_position st) (controls_target st) (objects_list st).

Definition set_meshes (m : list Entry) (st : State) : State :=
  mkState (heap st) (planes st) m (selectedMeshId st) (clipping st)
    (slice_pos st) (camera_position st) (controls_target st) (objects_list st).

Definition set_selectedMeshId (s : option string) (st : State) : State :=
  mkState (heap st) (planes st) (meshes st) s (clipping st)
    (slice_pos st) (camera_position st) (controls_target st) (objects_list st).

Definition set_clipping (c : Clipping) (st : State) : State :=
  mkState (heap st) (planes st) (meshes st) (selectedMeshId st) c
    (slice_pos st) (camera_position st) (controls_target st) (objects_list st).

Definition set_slice_pos (p : SlicePos) (st : State) : State :=
  mkState (heap st) (planes st) (meshes st) (selectedMeshId st) (clipping st)
    p (camera_position st) (controls_target st) (objects_list st).

Definition set_camera (pos target : Vector3) (st : State) : State :=
  mkState (heap st) (planes st) (meshes st) (selectedMeshId st) (clipping st)
    (slice_pos st) pos target (objects_list st).

Definition set_objects_list (l : list Item) (st : State) : State :=
  mkState (heap st) (planes st) (meshes st) (selectedMeshId st) (clipping st)
    (slice_pos st) (camera_position st) (controls_target st) l.

(** Field updates of the objects in the stores. *)
Definition with_visible (v : jsbool) (m : Mesh) : Mesh :=
  mkMesh (mesh_name m) (mesh_geometry m) (mesh_material m) v (mesh_userData_visible m).

Definition with_userData_visible (v : jsbool) (m : Mesh) : Mesh :=
  mkMesh (mesh_name m) (mesh_geometry m) (mesh_material m) (mesh_visible m) v.

Definition with_material (mat : Material) (m : Mesh) : Mesh :=
  mkMesh (mesh_name m) (mesh_geometry m) mat (mesh_visible m) (mesh_userData_visible m).

Definition with_opacity (v : R) (mat : Material) : Material :=
  mkMaterial (mat_color mat) (mat_shininess mat) (mat_transparent mat) v
    (mat_side mat) (mat_clippingPlanes mat) (mat_needsUpdate mat).

(** [material.clippingPlanes = ps; material.needsUpdate = true] *)
Definition with_clippingPlanes (ps : list pref) (mat : Material) : Material :=
  mkMaterial (mat_color mat) (mat_shininess mat) (mat_transparent mat)
    (mat_opacity mat) (mat_side mat) ps true.

Definition with_constant (c : R) (p : Plane) : Plane := mkPlane (normal p) c.

(** [new THREE.Mesh(...)] and [new THREE.Plane(...)]: the new object gets the
    next address of its store. *)
Definition alloc_mesh (m : Mesh) (st : State) : mref * State :=
  (length (heap st), set_heap (heap st ++ [m]) st).

Definition alloc_plane (p : Plane) (st : State) : pref * State :=
  (length (planes st), set_planes (planes st ++ [p]) st).

(** Reading a plane object through its address. *)
Definition plane_at (st : State) (r : pref) : Plane :=
  default (mkPlane Vector3_zero 0) (planes st !! r).

(** The planes a material clips with, read through the store. *)
Definition clippingPlanes_of (st : State) (r : mref) : list Plane :=
  match heap st !! r with
  | Some m => map (plane_at st) (mat_clippingPlanes (mesh_material m))
  | None => []
  end.

(** [new THREE.Box3().setFromObject(mesh)]: the meshes are never moved, so
    this is the bounding box of the mesh's vertices. *)
Definition setFromObject (st : State) (r : mref) : Box3 :=
  match heap st !! r with
  | Some m => Box3_setFromPoints (mesh_geometry m)
  | None => Box3_empty
  end.

(** [meshes.find(m => m.id === selectedMeshId)] *)
Definition find_selected (st : State) : option Entry :=
  find (fun m => id_eqb (entry_id m) (selectedMeshId st)) (meshes st).

(** [meshes.find(m => m.id === id)] *)
Definition find_id (id : string) (st : State) : option Entry :=
  find (fun m => String.eqb (entry_id m) id) (meshes st).

(** The negative unit vector of an axis. *)
Definition axis_normal (a : Axis) : Vector3 :=
  match a with
  | ax_x => mkVector3 (-1) 0 0
  | ax_y => mkVector3 0 (-1) 0
  | ax_z => mkVector3 0 0 (-1)
  end.

(** ** What the three scripts share word for word *)

(** The result of [loader.parse(arrayBuffer)] for an uploaded file, with
    the file's name. *)
Record File := mkFile { file_name : string; file_geometry : Geometry }.

(** [camera = new THREE.PerspectiveCamera(60, 1, 0.1, 5000)]; the field of
    view is never changed. *)
Definition camera_fov : R := 60.

(** The state after [init()].  The values of the three slice sliders come
    from the page, which is not part of the sources. *)
Definition init (sliders : SlicePos) : State :=
  mkState []
    [mkPlane (mkVector3 (-1) 0 0) 0; mkPlane (mkVector3 0 (-1) 0) 0;
     mkPlane (mkVector3 0 0 (-1)) 0]
    [] None
    (mkClipping (mkAxisState false 0%nat) (mkAxisState false 1%nat)
       (mkAxisState false 2%nat))
    sliders (mkVector3 0 0 250) Vector3_zero [].

(** [getActiveClippingPlanes] of [main.js], [activeCliping] of the core
    script: the plane objects of the enabled axes, in the order x, y, z. *)
Definition getActiveClippingPlanes (st : State) : list pref :=
  let arr := [] in
  let arr := if enabled (clip_x (clipping st)) then arr ++ [plane (clip_x (clipping st))] else arr in
  let arr := if enabled (clip_y (clipping st)) then arr ++ [plane (clip_y (clipping st))] else arr in
  let arr := if enabled (clip_z (clipping st)) then arr ++ [plane (clip_z (clipping st))] else arr in
  arr.

(** The union of the boxes of all registry entries:
    [meshes.forEach(o => bbox.union(new THREE.Box3().setFromObject(o.mesh)))] *)
Definition union_of_meshes (st : State) : Box3 :=
  fold_left (fun bbox o => Box3_union bbox (setFromObject st (entry_mesh o)))
    (meshes st) Box3_empty.

(** [fitCameraToObjects(margin)] of [main.js], [cameraPosition(margin)] of
    the core script.  [controls.update()] leaves the camera where it was
    put when no interactive motion is pending. *)
Definition fitCameraToObjects (margin : R) (st : State) : State :=
  match meshes st with
  | [] => set_camera (mkVector3 0 0 250) (mkVector3 0 0 0) st
  | _ =>
      let bbox := union_of_meshes st in
      let size := Box3_getSize bbox in
      let center := Box3_getCenter bbox in
      let maxDim := Math_max3 (vx size) (vy size) (vz size) in
      let fov := camera_fov * (PI / 180) in
      let cameraZ := Rabs (maxDim / 2 / tan (fov / 2)) * margin in
      let cameraZ := Rmax cameraZ 50 in
      set_camera (mkVector3 (vx center) (vy center) (vz center + cameraZ))
        center st
  end.

(** The default value of the parameter [margin]. *)
Definition default_margin : R := 1.4.

(** [resetView]: [controls.reset()] restores the camera and the target
    saved when the controls were created, then the view is fitted. *)
Definition resetView (st : State) : State :=
  let st := set_camera (mkVector3 0 0 250) Vector3_zero st in
  fitCameraToObjects default_margin st.

(** The generated identifier: [`obj-${Date.now()}-${Math.floor(Math.random()*1000)}`]. *)
Definition make_id (now rnd : nat) : string :=
  "obj-" ++ dec now ++ "-" ++ dec rnd.

Definition name_at (st : State) (r : mref) : string :=
  match heap st !! r with Some m => mesh_name m | None => EmptyString end.

(** A write to one field of one mesh object. *)
Definition update_mesh (f : Mesh -> Mesh) (r : mref) (st : State) : State :=
  set_heap (alter f r (heap st)) st.

(** [clipping[axis].enabled = checked], the first statement of the checkbox
    listener. *)
Definition set_enabled (a : Axis) (checked : bool) (st : State) : State :=
  set_clipping
    (clip_set a (mkAxisState checked (plane (clip_get a (clipping st)))) (clipping st)) st.

(** [clipping[axis].plane.constant = parseFloat(e.target.value)], the first
    statement of the range listener; the range input holds the value by
    then. *)
Definition set_constant (a : Axis) (v : R) (st : State) : State :=
  let st := set_slice_pos (pos_set a v (slice_pos st)) st in
  set_planes (alter (with_constant v) (plane (clip_get a (clipping st))) (planes st)) st.

(** ** The first script of [main.js] *)

Module ListControls.

(** [addMeshToList(mesh)] (lines 102-180): the item with its controls, the
    mesh hidden, one registry entry [{ id, mesh, slider }]. *)
Definition addMeshToList (now rnd : nat) (mesh : mref) (st : State) : string * State :=
  let id := make_id now rnd in
  let title := name_at st mesh in
  let st := update_mesh (with_visible (Some false)) mesh st in
  let st := set_objects_list (objects_list st ++ [mkItem id title mesh]) st in
  let st := set_meshes (meshes st ++ [mkEntry id mesh true]) st in
  (id, st).

(** [updateClippingPlanes()] (lines 191-198): the configured plane objects
    themselves go to the material of the selected mesh. *)
Definition updateClippingPlanes (st : State) : State :=
  let active := getActiveClippingPlanes st in
  match find_selected st with
  | Some obj =>
      update_mesh (fun m => with_material (with_clippingPlanes active (mesh_material m)) m)
        (entry_mesh obj) st
  | None => st
  end.

(** [selectMesh(id)] (lines 307-316). *)
Definition selectMesh (id : string) (st : State) : State :=
  let st :=
    fold_left
      (fun st o =>
         update_mesh
           (fun m => with_visible
                       (if String.eqb (entry_id o) id
                        then mesh_userData_visible m else Some false) m)
           (entry_mesh o) st)
      (meshes st) st in
  let st := set_selectedMeshId (Some id) st in
  updateClippingPlanes st.

(** The body of [reader.onload] in [handleFileUpload] (lines 64-99) and of
    the callback of [loadLocalSTL] (lines 289-305), which differ in the name
    and the colour. *)
Definition add_loaded (name : string) (col : N) (geometry : Geometry)
    (now rnd : nat) (st : State) : State :=
  let material :=
    mkMaterial col 60 true 1 DoubleSide (getActiveClippingPlanes st) false in
  let '(mesh, st) := alloc_mesh (mkMesh name geometry material (Some true) None) st in
  let '(id, st) := addMeshToList now rnd mesh st in
  let st := set_meshes (meshes st ++ [mkEntry id mesh false]) st in
  fitCameraToObjects default_margin st.

Definition handleFileUpload (file : option File) (now rnd : nat) (st : State) : State :=
  match file with
  | None => st
  | Some f =>
      add_loaded
        (str_or (String_replace ".stl" EmptyString (file_name f))
           ("Object " ++ dec (length (meshes st) + 1)))
        0xc8cfd6%N (file_geometry f) now rnd st
  end.

Definition loadLocalSTL (path name : string) (geometry : Geometry)
    (now rnd : nat) (st : State) : State :=
  add_loaded (str_or name (split_pop path)) 0xd1d7df%N geometry now rnd st.

(** The listener of the visibility button of the item of [id] and [mesh]
    (lines 135-141). *)
Definition visBtn_click (id : string) (mesh : mref) (st : State) : State :=
  let st := update_mesh (fun m => with_userData_visible (js_not (mesh_userData_visible m)) m) mesh st in
  if id_eqb id (selectedMeshId st)
  then update_mesh (fun m => with_visible (js_not (mesh_visible m)) m) mesh st
  else st.

(** The listeners of the three preset buttons and of the slider of an item
    (lines 148-166), with the opacity they write. *)
Definition opacity_listener (id : string) (mesh : mref) (v : R) (st : State) : State :=
  if id_eqb id (selectedMeshId st)
  then update_mesh (fun m => with_material (with_opacity v (mesh_material m)) m) mesh st
  else st.

(** What the user can do.  A click on a button of an item also reaches the
    click listener of the item, which selects the mesh. *)
Inductive Op :=
| Upload (file : option File) (now rnd : nat)
| LoadLocal (path name : string) (geometry : Geometry) (now rnd : nat)
| ClickItem (k : nat)
| ClickVis (k : nat)
| ClickFull (k : nat)
| ClickHalf (k : nat)
| ClickTrans (k : nat)
| SliderInput (k : nat) (v : R)
| SliceCheck (a : Axis) (checked : bool)
| SliceRange (a : Axis) (v : R)
| Reset.

Definition on_item (k : nat) (f : Item -> State -> State) (st : State) : State :=
  match objects_list st !! k with
  | Some it => f it st
  | None => st
  end.

Definition step (st : State) (o : Op) : State :=
  match o with
  | Upload file now rnd => handleFileUpload file now rnd st
  | LoadLocal path name g now rnd => loadLocalSTL path name g now rnd st
  | ClickItem k => on_item k (fun it => selectMesh (item_id it)) st
  | ClickVis k =>
      on_item k (fun it st =>
        selectMesh (item_id it) (visBtn_click (item_id it) (item_mesh it) st)) st
  | ClickFull k =>
      on_item k (fun it st =>
        selectMesh (item_id it) (opacity_listener (item_id it) (item_mesh it) 1 st)) st
  | ClickHalf k =>
      on_item k (fun it st =>
        selectMesh (item_id it) (opacity_listener (item_id it) (item_mesh it) 0.5 st)) st
  | ClickTrans k =>
      on_item k (fun it st =>
        selectMesh (item_id it) (opacity_listener (item_id it) (item_mesh it) 0.15 st)) st
  | SliderInput k v =>
      on_item k (fun it => opacity_listener (item_id it) (item_mesh it) v) st
  | SliceCheck a checked => updateClippingPlanes (set_enabled a checked st)
  | SliceRange a v => updateClippingPlanes (set_constant a v st)
  | Reset => resetView st
  end.

Definition run (ops : list Op) (st : State) : State := fold_left step ops st.

End ListControls.

(** ** The second script of [main.js] *)

Module StaticControls.

(** [addMeshToList(mesh)] (lines 423-460): the item, the mesh hidden, one
    registry entry [{ id, mesh }]. *)
Definition addMeshToList (now rnd : nat) (mesh : mref) (st : State) : string * State :=
  let id := make_id now rnd in
  let title := str_or (name_at st mesh) ("Object " ++ dec (length (meshes st) + 1)) in
  let st := set_objects_list (objects_list st ++ [mkItem id title mesh]) st in
  let st := update_mesh (with_visible (Some false)) mesh st in
  let st := set_meshes (meshes st ++ [mkEntry id mesh false]) st in
  (id, st).

(** [updateClippingPlanes()] (lines 471-492): new plane objects for the
    selected mesh, the configured constant less the centre of its box. *)
Definition updateClippingPlanes (st : State) : State :=
  match find_selected st with
  | None => st
  | Some obj =>
      let bbox := setFromObject st (entry_mesh obj) in
      let center := Box3_getCenter bbox in
      let planes := [] in
      let '(planes, st) :=
        if enabled (clip_x (clipping st)) then
          let '(p, st) :=
            alloc_plane
              (mkPlane (mkVector3 (-1) 0 0)
                 (constant (plane_at st (plane (clip_x (clipping st)))) - vx center)) st in
          (planes ++ [p], st)
        else (planes, st) in
      let '(planes, st) :=
        if enabled (clip_y (clipping st)) then
          let '(p, st) :=
            alloc_plane
              (mkPlane (mkVector3 0 (-1) 0)
                 (constant (plane_at st (plane (clip_y (clipping st)))) - vy center)) st in
          (planes ++ [p], st)
        else (planes, st) in
      let '(planes, st) :=
        if enabled (clip_z (clipping st)) then
          let '(p, st) :=
            alloc_plane
              (mkPlane (mkVector3 0 0 (-1))
                 (constant (plane_at st (plane (clip_z (clipping st)))) - vz center)) st in
          (planes ++ [p], st)
        else (planes, st) in
      update_mesh (fun m => with_material (with_clippingPlanes planes (mesh_material m)) m)
        (entry_mesh obj) st
  end.

(** [selectMesh(id)] (lines 602-618); its last block only refreshes the
    static widgets. *)
Definition selectMesh (id : string) (st : State) : State :=
  let st :=
    fold_left
      (fun st o =>
         update_mesh
           (with_visible (Some (if String.eqb (entry_id o) id then true else false)))
           (entry_mesh o) st)
      (meshes st) st in
  let st := set_selectedMeshId (Some id) st in
  updateClippingPlanes st.

(** The body of [reader.onload] in [handleFileUpload] (lines 385-420) and of
    the callback of [loadLocalSTL] (lines 584-600). *)
Definition add_loaded (name : string) (col : N) (geometry : Geometry)
    (now rnd : nat) (st : State) : State :=
  let material :=
    mkMaterial col 60 true 1 DoubleSide (getActiveClippingPlanes st) false in
  let '(mesh, st) := alloc_mesh (mkMesh name geometry material (Some true) None) st in
  let '(id, st) := addMeshToList now rnd mesh st in
  let st := set_meshes (meshes st ++ [mkEntry id mesh false]) st in
  fitCameraToObjects default_margin st.

Definition handleFileUpload (file : option File) (now rnd : nat) (st : State) : State :=
  match file with
  | None => st
  | Some f =>
      add_loaded
        (str_or (String_replace ".stl" EmptyString (file_name f))
           ("Object " ++ dec (length (meshes st) + 1)))
        0xc8cfd6%N (file_geometry f) now rnd st
  end.

Definition loadLocalSTL (path name : string) (geometry : Geometry)
    (now rnd : nat) (st : State) : State :=
  add_loaded (str_or name (split_pop path)) 0xd1d7df%N geometry now rnd st.

(** The click listener of the static button [vis-btn] (lines 628-635). *)
Definition visBtn_click (st : State) : State :=
  if falsy_id (selectedMeshId st) then st
  else match find_selected st with
       | None => st
       | Some obj =>
           update_mesh (fun m => with_visible (js_not (mesh_visible m)) m)
             (entry_mesh obj) st
       end.

(** [setOpacityForSelected(value)] (lines 645-651). *)
Definition setOpacityForSelected (value : R) (st : State) : State :=
  if falsy_id (selectedMeshId st) then st
  else match find_selected st with
       | None => st
       | Some obj =>
           update_mesh (fun m => with_material (with_opacity value (mesh_material m)) m)
             (entry_mesh obj) st
       end.

Inductive Op :=
| Upload (file : option File) (now rnd : nat)
| LoadLocal (path name : string) (geometry : Geometry) (now rnd : nat)
| ClickItem (k : nat)
| ClickVis
| ClickFull
| ClickHalf
| ClickTrans
| OpacityInput (v : R)
| SliceCheck (a : Axis) (checked : bool)
| SliceRange (a : Axis) (v : R)
| Reset.

Definition step (st : State) (o : Op) : State :=
  match o with
  | Upload file now rnd => handleFileUpload file now rnd st
  | LoadLocal path name g now rnd => loadLocalSTL path name g now rnd st
  | ClickItem k =>
      match objects_list st !! k with
      | Some it => selectMesh (item_id it) st
      | None => st
      end
  | ClickVis => visBtn_click st
  | ClickFull => setOpacityForSelected 1 st
  | ClickHalf => setOpacityForSelected 0.5 st
  | ClickTrans => setOpacityForSelected 0.15 st
  | OpacityInput v => setOpacityForSelected v st
  | SliceCheck a checked => updateClippingPlanes (set_enabled a checked st)
  | SliceRange a v => updateClippingPlanes (set_constant a v st)
  | Reset => resetView st
  end.

Definition run (ops : list Op) (st : State) : State := fold_left step ops st.

End StaticControls.

(** ** The core script, [src/unnamed/part_000] *)

Module Core.

(** [addMeshToList(mesh)] (lines 160-188). *)
Definition addMeshToList (now rnd : nat) (mesh : mref) (st : State) : string * State :=
  let id := make_id now rnd in
  let title := str_or (name_at st mesh) ("Object " ++ dec (length (meshes st) + 1)) in
  let st := set_objects_list (objects_list st ++ [mkItem id title mesh]) st in
  let st := update_mesh (with_visible (Some false)) mesh st in
  let st := set_meshes (meshes st ++ [mkEntry id mesh false]) st in
  (id, st).

(** The point the plane of an axis is put through: the slider value on the
    axis, the centre of the box on the two others. *)
Definition coplanar_point (a : Axis) (val : R) (center : Vector3) : Vector3 :=
  match a with
  | ax_x => mkVector3 val (vy center) (vz center)
  | ax_y => mkVector3 (vx center) val (vz center)
  | ax_z => mkVector3 (vx center) (vy center) val
  end.

(** One of the three [if (clipping.a.enabled) { ... }] blocks of
    [updateClippingPlanes] (lines 213-241). *)
Definition clip_axis (a : Axis) (center : Vector3) (acc : list pref * State)
    : list pref * State :=
  let '(planes, st) := acc in
  if enabled (clip_get a (clipping st)) then
    let val := pos_get a (slice_pos st) in
    let normal := axis_normal a in
    let '(p, st) :=
      alloc_plane
        (Plane_setFromNormalAndCoplanarPoint normal (coplanar_point a val center)) st in
    (planes ++ [p],
     set_clipping (clip_set a (mkAxisState (enabled (clip_get a (clipping st))) p)
                     (clipping st)) st)
  else (planes, st).

(** The body of [targets.forEach] in [updateClippingPlanes] (lines 208-250). *)
Definition clip_target (st : State) (o : Entry) : State :=
  let mesh := entry_mesh o in
  let bbox := setFromObject st mesh in
  let center := Box3_getCenter bbox in
  let '(planes, st) :=
    clip_axis ax_z center (clip_axis ax_y center (clip_axis ax_x center ([], st))) in
  update_mesh (fun m => with_material (with_clippingPlanes planes (mesh_material m)) m)
    mesh st.

(** [updateClippingPlanes()] (lines 196-251). *)
Definition updateClippingPlanes (st : State) : State :=
  let targets :=
    if falsy_id (selectedMeshId st) then meshes st
    else match find_selected st with
         | Some obj => [obj]
         | None => []
         end in
  match targets with
  | [] => st
  | _ => fold_left clip_target targets st
  end.

(** [activeCliping()] (lines 256-262). *)
Definition activeCliping (st : State) : list pref := getActiveClippingPlanes st.

(** [cameraPosition(margin)] (lines 305-328). *)
Definition cameraPosition (margin : R) (st : State) : State :=
  fitCameraToObjects margin st.

(** [selectMesh(id)] (lines 398-413). *)
Definition selectMesh (id : string) (st : State) : State :=
  let st :=
    fold_left
      (fun st o =>
         update_mesh (with_visible (Some (String.eqb (entry_id o) id)))
           (entry_mesh o) st)
      (meshes st) st in
  let st := set_selectedMeshId (Some id) st in
  updateClippingPlanes st.

(** One round of the loop over the axes in [handleFileUpload] (lines
    131-145): the slider is put at three quarters of the extent and the axis
    gets a new plane object.  For a geometry without vertices the box is
    empty, the script gives the range input the bounds [Infinity] and
    [-Infinity] and the value [NaN]; the input takes none of them and falls
    back to its default bounds 0 and 100 and to the value midway, 50. *)
Definition reset_axis (bbox : Box3) (st : State) (a : Axis) : State :=
  let st :=
    match bbox with
    | Some (mn, mx) =>
        let lo := match a with ax_x => vx mn | ax_y => vy mn | ax_z => vz mn end in
        let hi := match a with ax_x => vx mx | ax_y => vy mx | ax_z => vz mx end in
        set_slice_pos (pos_set a ((hi + lo) / 2 + (hi - lo) * 0.25) (slice_pos st)) st
    | None => set_slice_pos (pos_set a 50 (slice_pos st)) st
    end in
  let '(p, st) := alloc_plane (mkPlane (axis_normal a) 0) st in
  set_clipping (clip_set a (mkAxisState (enabled (clip_get a (clipping st))) p)
                  (clipping st)) st.

(** [handleFileUpload(e)] with the body of [reader.onload] (lines 98-153). *)
Definition handleFileUpload (file : option File) (now rnd : nat) (st : State) : State :=
  match file with
  | None => st
  | Some f =>
      let geometry := file_geometry f in
      let material := mkMaterial 0xc8cfd6%N 60 true 1 DoubleSide [] false in
      let name :=
        str_or (String_replace ".stl" EmptyString (file_name f))
          ("Object " ++ dec (length (meshes st) + 1)) in
      let '(mesh, st) := alloc_mesh (mkMesh name geometry material (Some true) None) st in
      let '(id, st) := addMeshToList now rnd mesh st in
      let st := selectMesh id st in
      let bbox := setFromObject st mesh in
      let st := fold_left (reset_axis bbox) [ax_x; ax_y; ax_z] st in
      cameraPosition default_margin st
  end.

(** [loadLocalSTL(path, name)] with its callback (lines 374-390). *)
Definition loadLocalSTL (path name : string) (geometry : Geometry)
    (now rnd : nat) (st : State) : State :=
  let material :=
    mkMaterial 0xd1d7df%N 60 true 1 DoubleSide (activeCliping st) false in
  let '(mesh, st) :=
    alloc_mesh (mkMesh (str_or name (split_pop path)) geometry material (Some true) None) st in
  let '(id, st) := addMeshToList now rnd mesh st in
  let st := set_meshes (meshes st ++ [mkEntry id mesh false]) st in
  cameraPosition default_margin st.

(** The click listener of the static button [vis-btn] (lines 423-430). *)
Definition visBtn_click (st : State) : State :=
  if falsy_id (selectedMeshId st) then st
  else match find_selected st with
       | None => st
       | Some obj =>
           update_mesh (fun m => with_visible (js_not (mesh_visible m)) m)
             (entry_mesh obj) st
       end.

(** [dynamicSelectedOpacity(value)] (lines 445-451). *)
Definition dynamicSelectedOpacity (value : R) (st : State) : State :=
  if falsy_id (selectedMeshId st) then st
  else match find_selected st with
       | None => st
       | Some obj =>
           update_mesh (fun m => with_material (with_opacity value (mesh_material m)) m)
             (entry_mesh obj) st
       end.

Inductive Op :=
| Upload (file : option File) (now rnd : nat)
| LoadLocal (path name : string) (geometry : Geometry) (now rnd : nat)
| ClickItem (k : nat)
| ClickVis
| ClickFull
| ClickHalf
| ClickTrans
| OpacityInput (v : R)
| SliceCheck (a : Axis) (checked : bool)
| SliceRange (a : Axis) (v : R)
| Reset.

Definition step (st : State) (o : Op) : State :=
  match o with
  | Upload file now rnd => handleFileUpload file now rnd st
  | LoadLocal path name g now rnd => loadLocalSTL path name g now rnd st
  | ClickItem k =>
      match objects_list st !! k with
      | Some it => selectMesh (item_id it) st
      | None => st
      end
  | ClickVis => visBtn_click st
  | ClickFull => dynamicSelectedOpacity 1 st
  | ClickHalf => dynamicSelectedOpacity 0.5 st
  | ClickTrans => dynamicSelectedOpacity 0.15 st
  | OpacityInput v => dynamicSelectedOpacity v st
  | SliceCheck a checked => updateClippingPlanes (set_enabled a checked st)
  | SliceRange a v => updateClippingPlanes (set_constant a v st)
  | Reset => resetView st
  end.

Definition run (ops : list Op) (st : State) : State := fold_left step ops st.

End Core.

(** * The vocabulary of the properties *)

(** ** Camera framing *)

(** A box whose corners are in order on every axis. *)
Definition Box3_valid (b : Box3) : Prop :=
  match b with
  | None => True
  | Some (mn, mx) => vx mn <= vx mx /\ vy mn <= vy mx /\ vz mn <= vz mx
  end.

(** The largest dimension of the union box of the registry. *)
Definition largest_dimension (st : State) : R :=
  let size := Box3_getSize (union_of_meshes st) in
  Math_max3 (vx size) (vy size) (vz size).

(** The field of view in radians, as [fitCameraToObjects] computes it. *)
Definition fov_radians : R := camera_fov * (PI / 180).

(** The distance [fitCameraToObjects] keeps from the centre. *)
Definition frame_distance (st : State) : R :=
  Rmax 50 (largest_dimension st / 2 / tan (fov_radians / 2) * 1.4).

(** Changing the [visible] flag of every mesh at will. *)
Definition repaint (f : mref -> jsbool) (st : State) : State :=
  set_heap (imap (fun i m => with_visible (f i) m) (heap st)) st.

(** The point lies in the box. *)
Definition Box3_containsPoint (b : Box3) (p : Vector3) : Prop :=
  match b with
  | None => False
  | Some (mn, mx) =>
      vx mn <= vx p <= vx mx /\ vy mn <= vy p <= vy mx /\ vz mn <= vz p <= vz mx
  end.

(** The first box lies in the second. *)
Definition Box3_le (a b : Box3) : Prop :=
  match a, b with
  | None, _ => True
  | Some _, None => False
  | Some (mn, mx), Some (mn', mx') =>
      (vx mn' <= vx mn /\ vy mn' <= vy mn /\ vz mn' <= vz mn) /\
      (vx mx <= vx mx' /\ vy mx <= vy mx' /\ vz mx <= vz mx')
  end.

(** A vertex of the geometry of a mesh of the registry, whatever the
    [visible] flag of the mesh. *)
Definition registered_vertex (st : State) (v : Vector3) : Prop :=
  exists o m, In o (meshes st) /\ heap st !! entry_mesh o = Some m /\
              In v (mesh_geometry m).

(** The box holds every vertex of every registered mesh. *)
Definition encloses_registry (st : State) (b : Box3) : Prop :=
  forall v, registered_vertex st v -> Box3_containsPoint b v.

(** The union bounding box of the registered meshes, said without the
    script: the least box that holds every vertex of every registered
    mesh. *)
Definition union_box (st : State) (b : Box3) : Prop :=
  encloses_registry st b /\ forall b', encloses_registry st b' -> Box3_le b b'.

(** The centre and the largest dimension of a box, written out; the empty
    box has the centre (0,0,0) and the dimension 0. *)
Definition box_center (b : Box3) : Vector3 :=
  match b with
  | None => mkVector3 0 0 0
  | Some (mn, mx) =>
      mkVector3 ((vx mn + vx mx) / 2) ((vy mn + vy mx) / 2) ((vz mn + vz mx) / 2)
  end.

Definition box_largest_dimension (b : Box3) : R :=
  match b with
  | None => 0
  | Some (mn, mx) => Rmax (Rmax (vx mx - vx mn) (vy mx - vy mn)) (vz mx - vz mn)
  end.

(** ** Rewriting the store of meshes *)

(** The store [h'] is [h] rewritten in place: the same length, and the
    mesh at address [i] changed as [R i] allows. *)
Definition heap_rel (R : nat -> Mesh -> Mesh -> Prop) (h h' : list Mesh) : Prop :=
  length h' = length h /\
  forall i m, h !! i = Some m -> exists m', h' !! i = Some m' /\ R i m m'.

(** [st'] is [st] with meshes rewritten in place and nothing else changed. *)
Definition heap_step (R : nat -> Mesh -> Mesh -> Prop) (st st' : State) : Prop :=
  st' = set_heap (heap st') st /\ heap_rel R (heap st) (heap st').


(** Only the [visible] flag differs. *)
Definition only_visible (i : nat) (m m' : Mesh) : Prop :=
  m' = with_visible (mesh_visible m') m.



(** The loop of [selectMesh]: every entry of the registry in turn gets the
    [visible] flag [g] computes for it. *)
Definition sweep (g : Entry -> Mesh -> jsbool) (l : list Entry) (st : State) : State :=
  fold_left
    (fun st o => update_mesh (fun m => with_visible (g o m) m) (entry_mesh o) st) l st.

(** ** Selection and visibility *)

(** Reading the [visible] flag of the mesh of a registry entry. *)
Definition entry_visible (st : State) (o : Entry) : bool :=
  match heap st !! entry_mesh o with
  | Some m => truthy (mesh_visible m)
  | None => false
  end.

(** The registry entries whose mesh is visible. *)
Definition visible_entries (st : State) : list Entry :=
  List.filter (entry_visible st) (meshes st).

(** What [selectMesh] leaves when no entry carries the id: the meshes of
    the registry hidden, the id recorded, the rest as before. *)
Definition hidden_and_recorded (id : string) (st st' : State) : Prop :=
  selectedMeshId st' = Some id /\
  clipping st' = clipping st /\
  planes st' = planes st /\
  slice_pos st' = slice_pos st /\
  meshes st' = meshes st /\
  objects_list st' = objects_list st /\
  camera_position st' = camera_position st /\
  controls_target st' = controls_target st /\
  map mesh_material (heap st') = map mesh_material (heap st) /\
  (forall i m, heap st !! i = Some m ->
     exists m', heap st' !! i = Some m' /\ only_visible i m m') /\
  forall o, In o (meshes st) -> entry_visible st' o = false.











(** ** Clipping planes *)

(** The plane object of every axis has the negative unit vector of the axis
    as its normal. *)
Definition normals_fixed (st : State) : Prop :=
  forall a, (normal <$> planes st !! plane (clip_get a (clipping st)))
            = Some (axis_normal a).

(** The store of planes has grown and the configuration is the same. *)
Definition planes_grown (st st' : State) : Prop :=
  (exists extra, planes st' = planes st ++ extra) /\ clipping st' = clipping st.

(** The plane objects of the three axes are in the store. *)
Definition config_valid (st : State) : Prop :=
  forall a, (plane (clip_get a (clipping st)) < length (planes st))%nat.

(** The number of axes whose slice is switched on. *)
Definition enabled_count (st : State) : nat :=
  ((if enabled (clip_x (clipping st)) then 1 else 0) +
   (if enabled (clip_y (clipping st)) then 1 else 0) +
   (if enabled (clip_z (clipping st)) then 1 else 0))%nat.

(** The configured planes of the enabled axes, as they are. *)
Definition raw_planes (st : State) : list Plane :=
  map (plane_at st) (getActiveClippingPlanes st).

(** The planes of the enabled axes with the configured constant less the
    coordinate of [center] on the axis. *)
Definition centered_planes (st : State) (center : Vector3) : list Plane :=
  (if enabled (clip_x (clipping st))
   then [mkPlane (mkVector3 (-1) 0 0)
           (constant (plane_at st (plane (clip_x (clipping st)))) - vx center)]
   else []) ++
  (if enabled (clip_y (clipping st))
   then [mkPlane (mkVector3 0 (-1) 0)
           (constant (plane_at st (plane (clip_y (clipping st)))) - vy center)]
   else []) ++
  (if enabled (clip_z (clipping st))
   then [mkPlane (mkVector3 0 0 (-1))
           (constant (plane_at st (plane (clip_z (clipping st)))) - vz center)]
   else []).

(** The coordinate of a point on an axis. *)
Definition coordinate (a : Axis) (v : Vector3) : R :=
  match a with ax_x => vx v | ax_y => vy v | ax_z => vz v end.

(** One plane for each axis that [en] switches on, and none for the others:
    the plane of an axis has the negative unit vector of the axis as its
    normal and the offset [off] gives for the axis. *)
Definition planes_per_axis (en : Axis -> bool) (off : Axis -> R) : list Plane :=
  concat (map (fun a => if en a then [mkPlane (axis_normal a) (off a)] else [])
            [ax_x; ax_y; ax_z]).

(** Whether the slice of an axis is switched on, and the constant
    configured for the axis. *)
Definition axis_enabled (st : State) (a : Axis) : bool :=
  enabled (clip_get a (clipping st)).

Definition configured_constant (st : State) (a : Axis) : R :=
  constant (plane_at st (plane (clip_get a (clipping st)))).

(** ** Inputs and states of the examples *)

(** The slice sliders of the page, all at 0. *)
Definition page : SlicePos := mkSlicePos 0 0 0.

(** An uploaded file whose two vertices span the box from (1,0,0) to
    (3,4,8), with its centre at (2,2,4). *)
Definition cube : File := mkFile "cube.stl" [mkVector3 1 0 0; mkVector3 3 4 8].

(** A second uploaded file. *)
Definition sphere : File := mkFile "sphere.stl" [mkVector3 0 0 0; mkVector3 2 2 2].

(** The registry after one upload, its mesh selected. *)
Definition one_selected : State :=
  StaticControls.selectMesh (make_id 17 42)
    (StaticControls.handleFileUpload (Some cube) 17 42 (init page)).

(** The same after [selectMesh] on an id that is not registered. *)
Definition unregistered_selected : State :=
  StaticControls.selectMesh "obj-0-0" one_selected.



(** The second script after an upload of [cube], whose box has its centre at
    x = 2, the mesh selected, the x slider moved to 5 and the x slice
    switched on. *)
Definition cube_sliced : State :=
  StaticControls.run
    [StaticControls.Upload (Some cube) 17 42; StaticControls.ClickItem 0;
     StaticControls.SliceRange ax_x 5; StaticControls.SliceCheck ax_x true]
    (init page).

(** The second script after two uploads and a click on the second item. *)
Definition sphere_shown : State :=
  StaticControls.run
    [StaticControls.Upload (Some cube) 17 42; StaticControls.Upload (Some sphere) 18 7;
     StaticControls.ClickItem 1]
    (init page).

(** The second script after an upload of [cube], the mesh selected, the
    three sliders moved to 5, 6 and 7 and the three slices switched on. *)
Definition all_sliced : State :=
  StaticControls.run
    [StaticControls.Upload (Some cube) 17 42; StaticControls.ClickItem 0;
     StaticControls.SliceRange ax_x 5; StaticControls.SliceRange ax_y 6;
     StaticControls.SliceRange ax_z 7; StaticControls.SliceCheck ax_x true;
     StaticControls.SliceCheck ax_y true; StaticControls.SliceCheck ax_z true]
    (init page).

(** ** Tactics *)

(** Evaluation of a script on given inputs, the arithmetic left as it is. *)
Ltac evaluate :=
  cbv -[Rmin Rmax Rabs tan PI IZR Rplus Rminus Rmult Rdiv Ropp Rinv sqrt Rle Rlt].


(** Minima and maxima of numerals. *)
Ltac resolve_minmax :=
  repeat match goal with
    | |- context [Rmin ?a ?b] =>
        first [rewrite (Rmin_left a b) by lra | rewrite (Rmin_right a b) by lra]
    | |- context [Rmax ?a ?b] =>
        first [rewrite (Rmax_left a b) by lra | rewrite (Rmax_right a b) by lra]
    end.

(** * Properties *)

(** ** Boxes *)

Lemma Box3_expandByPoint_valid b p :
  Box3_valid b -> Box3_valid (Box3_expandByPoint b p).
Proof.
  destruct b as [[mn mx]|]; simpl.
  - intros (Hx & Hy & Hz). repeat split.
    + apply Rle_trans with (vx mn); [apply Rmin_l|].
      apply Rle_trans with (vx mx); [exact Hx|apply Rmax_l].
    + apply Rle_trans with (vy mn); [apply Rmin_l|].
      apply Rle_trans with (vy mx); [exact Hy|apply Rmax_l].
    + apply Rle_trans with (vz mn); [apply Rmin_l|].
      apply Rle_trans with (vz mx); [exact Hz|apply Rmax_l].
  - intros _. repeat split; apply Rle_refl.
Qed.

Lemma Box3_setFromPoints_valid pts : Box3_valid (Box3_setFromPoints pts).
Proof.
  unfold Box3_setFromPoints.
  assert (H : Box3_valid Box3_empty) by exact I.
  revert H. generalize Box3_empty.
  induction pts as [|p pts IH]; intros b Hb; simpl; [exact Hb|].
  apply IH, Box3_expandByPoint_valid, Hb.
Qed.

Lemma Box3_union_valid a b :
  Box3_valid a -> Box3_valid b -> Box3_valid (Box3_union a b).
Proof.
  destruct a as [[mn mx]|], b as [[mn' mx']|]; simpl; auto.
  intros (Hx & Hy & Hz) _. repeat split.
  - apply Rle_trans with (vx mn); [apply Rmin_l|].
    apply Rle_trans with (vx mx); [exact Hx|apply Rmax_l].
  - apply Rle_trans with (vy mn); [apply Rmin_l|].
    apply Rle_trans with (vy mx); [exact Hy|apply Rmax_l].
  - apply Rle_trans with (vz mn); [apply Rmin_l|].
    apply Rle_trans with (vz mx); [exact Hz|apply Rmax_l].
Qed.

Lemma setFromObject_valid st r : Box3_valid (setFromObject st r).
Proof.
  unfold setFromObject. destruct (heap st !! r); [|exact I].
  apply Box3_setFromPoints_valid.
Qed.

Lemma union_of_meshes_valid st : Box3_valid (union_of_meshes st).
Proof.
  unfold union_of_meshes.
  assert (H : Box3_valid Box3_empty) by exact I.
  revert H. generalize Box3_empty.
  induction (meshes st) as [|o l IH]; intros b Hb; simpl; [exact Hb|].
  apply IH, Box3_union_valid; [exact Hb|apply setFromObject_valid].
Qed.

Lemma Box3_getSize_nonneg b :
  Box3_valid b ->
  0 <= vx (Box3_getSize b) /\ 0 <= vy (Box3_getSize b) /\ 0 <= vz (Box3_getSize b).
Proof.
  destruct b as [[mn mx]|]; simpl.
  - intros (Hx & Hy & Hz). repeat split; lra.
  - intros _. repeat split; apply Rle_refl.
Qed.

Lemma Math_max3_nonneg a b c : 0 <= a -> 0 <= Math_max3 a b c.
Proof.
  intros Ha. unfold Math_max3.
  apply Rle_trans with (Rmax a b); [|apply Rmax_l].
  apply Rle_trans with a; [exact Ha|apply Rmax_l].
Qed.

(** *** The least box around the vertices *)

Lemma Box3_expandByPoint_keeps b p q :
  Box3_containsPoint b p -> Box3_containsPoint (Box3_expandByPoint b q) p.
Proof.
  destruct b as [[mn mx]|]; simpl; [|tauto].
  intros ((H1 & H2) & (H3 & H4) & (H5 & H6)).
  pose proof (Rmin_l (vx mn) (vx q)). pose proof (Rmax_l (vx mx) (vx q)).
  pose proof (Rmin_l (vy mn) (vy q)). pose proof (Rmax_l (vy mx) (vy q)).
  pose proof (Rmin_l (vz mn) (vz q)). pose proof (Rmax_l (vz mx) (vz q)).
  repeat split; lra.
Qed.

Lemma Box3_expandByPoint_adds b p : Box3_containsPoint (Box3_expandByPoint b p) p.
Proof.
  destruct b as [[mn mx]|]; simpl.
  - pose proof (Rmin_r (vx mn) (vx p)). pose proof (Rmax_r (vx mx) (vx p)).
    pose proof (Rmin_r (vy mn) (vy p)). pose proof (Rmax_r (vy mx) (vy p)).
    pose proof (Rmin_r (vz mn) (vz p)). pose proof (Rmax_r (vz mx) (vz p)).
    repeat split; lra.
  - repeat split; lra.
Qed.

Lemma Box3_setFromPoints_contains pts p :
  In p pts -> Box3_containsPoint (Box3_setFromPoints pts) p.
Proof.
  unfold Box3_setFromPoints. generalize Box3_empty.
  assert (Hkeep : forall l b, Box3_containsPoint b p ->
                              Box3_containsPoint (fold_left Box3_expandByPoint l b) p).
  { induction l as [|q l IH]; intros b Hb; [exact Hb|].
    simpl. apply IH, Box3_expandByPoint_keeps, Hb. }
  induction pts as [|q pts IH]; intros b Hin; [destruct Hin|].
  simpl. destruct Hin as [->|Hin].
  - apply Hkeep, Box3_expandByPoint_adds.
  - apply IH, Hin.
Qed.

Lemma Box3_expandByPoint_least b p c :
  Box3_le b c -> Box3_containsPoint c p -> Box3_le (Box3_expandByPoint b p) c.
Proof.
  destruct b as [[mn mx]|], c as [[mn' mx']|]; simpl; try tauto.
  intros ((A1 & A2 & A3) & (A4 & A5 & A6)) ((H1 & H2) & (H3 & H4) & (H5 & H6)).
  repeat split; first [apply Rmin_glb; lra | apply Rmax_lub; lra].
Qed.

Lemma Box3_setFromPoints_least pts c :
  (forall p, In p pts -> Box3_containsPoint c p) -> Box3_le (Box3_setFromPoints pts) c.
Proof.
  unfold Box3_setFromPoints.
  assert (H : Box3_le Box3_empty c) by exact I.
  revert H. generalize Box3_empty.
  induction pts as [|q pts IH]; intros b Hb Hin; simpl; [exact Hb|].
  apply IH.
  - apply Box3_expandByPoint_least; [exact Hb|]. apply Hin. left. reflexivity.
  - intros p Hp. apply Hin. right. exact Hp.
Qed.

Lemma Box3_union_contains_l a b p :
  Box3_containsPoint a p -> Box3_containsPoint (Box3_union a b) p.
Proof.
  destruct a as [[mn mx]|], b as [[mn' mx']|]; simpl; try tauto.
  intros ((H1 & H2) & (H3 & H4) & (H5 & H6)).
  pose proof (Rmin_l (vx mn) (vx mn')). pose proof (Rmax_l (vx mx) (vx mx')).
  pose proof (Rmin_l (vy mn) (vy mn')). pose proof (Rmax_l (vy mx) (vy mx')).
  pose proof (Rmin_l (vz mn) (vz mn')). pose proof (Rmax_l (vz mx) (vz mx')).
  repeat split; lra.
Qed.

Lemma Box3_union_contains_r a b p :
  Box3_containsPoint b p -> Box3_containsPoint (Box3_union a b) p.
Proof.
  destruct a as [[mn mx]|], b as [[mn' mx']|]; simpl; try tauto.
  intros ((H1 & H2) & (H3 & H4) & (H5 & H6)).
  pose proof (Rmin_r (vx mn) (vx mn')). pose proof (Rmax_r (vx mx) (vx mx')).
  pose proof (Rmin_r (vy mn) (vy mn')). pose proof (Rmax_r (vy mx) (vy mx')).
  pose proof (Rmin_r (vz mn) (vz mn')). pose proof (Rmax_r (vz mx) (vz mx')).
  repeat split; lra.
Qed.

Lemma Box3_union_least a b c : Box3_le a c -> Box3_le b c -> Box3_le (Box3_union a b) c.
Proof.
  destruct a as [[mn mx]|], b as [[mn' mx']|], c as [[mn'' mx'']|]; simpl; try tauto.
  intros ((A1 & A2 & A3) & (A4 & A5 & A6)) ((B1 & B2 & B3) & (B4 & B5 & B6)).
  repeat split; first [apply Rmin_glb; lra | apply Rmax_lub; lra].
Qed.

Lemma Box3_le_antisym a b : Box3_le a b -> Box3_le b a -> a = b.
Proof.
  destruct a as [[[x1 y1 z1] [x2 y2 z2]]|], b as [[[x1' y1' z1'] [x2' y2' z2']]|];
    simpl; try tauto.
  intros ((A1 & A2 & A3) & (A4 & A5 & A6)) ((B1 & B2 & B3) & (B4 & B5 & B6)).
  repeat f_equal; lra.
Qed.

(** The box the script folds together holds every registered vertex. *)
Lemma union_of_meshes_encloses st : encloses_registry st (union_of_meshes st).
Proof.
  intros v (o & m & Ho & Hm & Hv). unfold union_of_meshes.
  assert (Hbox : Box3_containsPoint (setFromObject st (entry_mesh o)) v).
  { unfold setFromObject. rewrite Hm. apply Box3_setFromPoints_contains, Hv. }
  revert Ho. generalize Box3_empty.
  assert (Hkeep : forall l b, Box3_containsPoint b v ->
            Box3_containsPoint
              (fold_left (fun bbox o => Box3_union bbox (setFromObject st (entry_mesh o))) l b) v).
  { induction l as [|q l IH]; intros b Hb; [exact Hb|].
    simpl. apply IH, Box3_union_contains_l, Hb. }
  induction (meshes st) as [|q l IH]; intros b Hin; [destruct Hin|].
  simpl. destruct Hin as [->|Hin].
  - apply Hkeep, Box3_union_contains_r, Hbox.
  - apply IH, Hin.
Qed.

(** It lies in every box that holds every registered vertex. *)
Lemma union_of_meshes_least st c :
  encloses_registry st c -> Box3_le (union_of_meshes st) c.
Proof.
  intros Hc. unfold union_of_meshes.
  assert (Hone : forall o, In o (meshes st) ->
                   Box3_le (setFromObject st (entry_mesh o)) c).
  { intros o Ho. unfold setFromObject.
    destruct (heap st !! entry_mesh o) as [m|] eqn:Hm; [|exact I].
    apply Box3_setFromPoints_least. intros p Hp. apply Hc. exists o, m. auto. }
  assert (H : Box3_le Box3_empty c) by exact I.
  revert H Hone. generalize Box3_empty.
  induction (meshes st) as [|q l IH]; intros b Hb Hone; simpl; [exact Hb|].
  apply IH.
  - apply Box3_union_least; [exact Hb|]. apply Hone. left. reflexivity.
  - intros o Ho. apply Hone. right. exact Ho.
Qed.

Lemma union_of_meshes_union_box st : union_box st (union_of_meshes st).
Proof. split; [apply union_of_meshes_encloses|apply union_of_meshes_least]. Qed.

Lemma union_box_unique st b : union_box st b -> b = union_of_meshes st.
Proof.
  intros (He & Hl). apply Box3_le_antisym.
  - apply Hl, union_of_meshes_encloses.
  - apply union_of_meshes_least, He.
Qed.

Lemma box_center_eq b : Box3_getCenter b = box_center b.
Proof.
  destruct b as [[mn mx]|]; [|reflexivity].
  unfold Box3_getCenter, box_center, Vector3_multiplyScalar, Vector3_add. simpl.
  f_equal; lra.
Qed.

Lemma box_largest_dimension_eq b :
  Math_max3 (vx (Box3_getSize b)) (vy (Box3_getSize b)) (vz (Box3_getSize b)) =
  box_largest_dimension b.
Proof.
  destruct b as [[mn mx]|]; [reflexivity|].
  unfold Math_max3, Box3_getSize, Vector3_zero, box_largest_dimension. simpl.
  rewrite (Rmax_left 0 0) by lra. rewrite (Rmax_left 0 0) by lra. reflexivity.
Qed.

(** ** The camera *)

Lemma half_fov : fov_radians / 2 = PI / 6.
Proof. unfold fov_radians, camera_fov. field. Qed.

Lemma tan_half_fov_pos : 0 < tan (fov_radians / 2).
Proof.
  rewrite half_fov. pose proof PI_RGT_0 as Hpi.
  apply tan_gt_0; lra.
Qed.

Lemma frame_distance_nonneg st margin :
  0 <= margin ->
  0 <= largest_dimension st / 2 / tan (fov_radians / 2) * margin.
Proof.
  intros Hm. pose proof tan_half_fov_pos as Ht.
  assert (HD : 0 <= largest_dimension st).
  { unfold largest_dimension.
    apply Math_max3_nonneg, Box3_getSize_nonneg, union_of_meshes_valid. }
  apply Rmult_le_pos; [|exact Hm].
  apply Rmult_le_pos; [lra|]. left. apply Rinv_0_lt_compat, Ht.
Qed.

Lemma fitCameraToObjects_nonempty st :
  meshes st <> [] ->
  fitCameraToObjects default_margin st =
  set_camera
    (mkVector3 (vx (Box3_getCenter (union_of_meshes st)))
       (vy (Box3_getCenter (union_of_meshes st)))
       (vz (Box3_getCenter (union_of_meshes st)) + frame_distance st))
    (Box3_getCenter (union_of_meshes st)) st.
Proof.
  intros Hne. unfold fitCameraToObjects.
  destruct (meshes st) as [|o l] eqn:E; [congruence|].
  f_equal. f_equal. f_equal.
  unfold frame_distance, default_margin.
  fold fov_radians. fold (largest_dimension st).
  rewrite Rabs_pos_eq.
  - apply Rmax_comm.
  - pose proof (frame_distance_nonneg st 1 ltac:(lra)). lra.
Qed.

Lemma setFromObject_repaint f st r :
  setFromObject (repaint f st) r = setFromObject st r.
Proof.
  unfold setFromObject, repaint; simpl.
  rewrite list_lookup_imap. destruct (heap st !! r); reflexivity.
Qed.

Lemma union_of_meshes_repaint f st :
  union_of_meshes (repaint f st) = union_of_meshes st.
Proof.
  unfold union_of_meshes. simpl.
  generalize Box3_empty.
  induction (meshes st) as [|o l IH]; intros b; simpl; [reflexivity|].
  rewrite setFromObject_repaint. apply IH.
Qed.

Lemma fitCameraToObjects_repaint margin f st :
  camera_position (fitCameraToObjects margin (repaint f st)) =
    camera_position (fitCameraToObjects margin st) /\
  controls_target (fitCameraToObjects margin (repaint f st)) =
    controls_target (fitCameraToObjects margin st).
Proof.
  unfold fitCameraToObjects.
  rewrite union_of_meshes_repaint.
  change (meshes (repaint f st)) with (meshes st).
  destruct (meshes st); split; reflexivity.
Qed.

Lemma Vector3_distanceTo_along_z c d :
  0 <= d -> Vector3_distanceTo (mkVector3 (vx c) (vy c) (vz c + d)) c = d.
Proof.
  intros Hd. unfold Vector3_distanceTo; simpl.
  replace ((vx c - vx c) * (vx c - vx c) + (vy c - vy c) * (vy c - vy c)
           + (vz c + d - vz c) * (vz c + d - vz c)) with (d * d) by ring.
  apply sqrt_square, Hd.
Qed.

Lemma frame_distance_ge_50 st : 50 <= frame_distance st.
Proof. unfold frame_distance. apply Rmax_l. Qed.

(** C4.  [fitCameraToObjects] with its default margin 1.4 ([cameraPosition]
    in the core script): on an empty registry the camera goes to (0,0,250)
    and the target to (0,0,0); on a non-empty registry the camera is put on
    the z axis through the centre of the union box of all registered meshes,
    at distance max(50, (D/2)/tan(fov/2)*1.4) from that centre, D being the
    largest dimension of the box, and it looks at the centre.  The union box
    is the least box that holds every vertex of every registered mesh; the
    [visible] flags of the meshes play no part. *)
Theorem fitToAll_frames_registry (st : State) :
  let st' := fitCameraToObjects default_margin st in
  let center := Box3_getCenter (union_of_meshes st) in
  let D := largest_dimension st in
  let dist := Rmax 50 (D / 2 / tan (fov_radians / 2) * 1.4) in
  (meshes st = [] ->
     camera_position st' = mkVector3 0 0 250 /\
     controls_target st' = mkVector3 0 0 0) /\
  (meshes st <> [] ->
     camera_position st' = mkVector3 (vx center) (vy center) (vz center + dist) /\
     controls_target st' = center /\
     Vector3_distanceTo (camera_position st') center = dist /\
     50 <= dist) /\
  (forall f : mref -> jsbool,
     camera_position (fitCameraToObjects default_margin (repaint f st)) =
       camera_position st' /\
     controls_target (fitCameraToObjects default_margin (repaint f st)) =
       controls_target st') /\
  Core.cameraPosition default_margin st = st' /\
  union_box st (union_of_meshes st) /\
  (forall box : Box3,
     union_box st box -> meshes st <> [] ->
     let c := box_center box in
     let d := Rmax 50 (box_largest_dimension box / 2 / tan (fov_radians / 2) * 1.4) in
     camera_position st' = mkVector3 (vx c) (vy c) (vz c + d) /\
     controls_target st' = c /\
     Vector3_distanceTo (camera_position st') c = d /\
     50 <= d).
Proof.
  cbv zeta. fold (frame_distance st).
  assert (Hne : meshes st <> [] ->
     camera_position (fitCameraToObjects default_margin st) =
       mkVector3 (vx (Box3_getCenter (union_of_meshes st)))
         (vy (Box3_getCenter (union_of_meshes st)))
         (vz (Box3_getCenter (union_of_meshes st)) + frame_distance st) /\
     controls_target (fitCameraToObjects default_margin st) =
       Box3_getCenter (union_of_meshes st) /\
     Vector3_distanceTo (camera_position (fitCameraToObjects default_margin st))
       (Box3_getCenter (union_of_meshes st)) = frame_distance st /\
     50 <= frame_distance st).
  { intros Hne. rewrite fitCameraToObjects_nonempty by assumption.
    split; [reflexivity|]. split; [reflexivity|]. split.
    - simpl. apply Vector3_distanceTo_along_z.
      pose proof (frame_distance_ge_50 st). lra.
    - apply frame_distance_ge_50. }
  split; [|split; [exact Hne|split; [|split; [reflexivity|split]]]].
  - intros Hnil. unfold fitCameraToObjects. rewrite Hnil. split; reflexivity.
  - intros f. apply fitCameraToObjects_repaint.
  - apply union_of_meshes_union_box.
  - intros box Hbox Hmeshes. rewrite (union_box_unique st box Hbox).
    rewrite <- box_center_eq, <- box_largest_dimension_eq.
    exact (Hne Hmeshes).
Qed.

(** The second script after two uploads and a click on the second item: the
    mesh of [sphere] shows and the mesh of [cube] is hidden.  The least box
    around the vertices of both runs from (0,0,0) to (3,4,8); the camera
    looks at its centre from the distance its largest dimension 8 gives.
    And the empty registry after [init()]. *)
Lemma fitToAll_frames_registry_witness :
  (mesh_visible <$> heap sphere_shown !! 0%nat) = Some (Some false) /\
  (mesh_visible <$> heap sphere_shown !! 1%nat) = Some (Some true) /\
  union_box sphere_shown (Some (mkVector3 0 0 0, mkVector3 3 4 8)) /\
  camera_position (fitCameraToObjects default_margin sphere_shown) =
    mkVector3 ((0 + 3) / 2) ((0 + 4) / 2)
      ((0 + 8) / 2 +
       Rmax 50 (Rmax (Rmax (3 - 0) (4 - 0)) (8 - 0) / 2 / tan (fov_radians / 2) * 1.4)) /\
  controls_target (fitCameraToObjects default_margin sphere_shown) =
    mkVector3 ((0 + 3) / 2) ((0 + 4) / 2) ((0 + 8) / 2) /\
  camera_position (fitCameraToObjects default_margin (init page)) = mkVector3 0 0 250 /\
  controls_target (fitCameraToObjects default_margin (init page)) = mkVector3 0 0 0.
Proof.
  pose proof (fitToAll_frames_registry sphere_shown) as (_ & _ & _ & _ & U & H).
  assert (E : union_of_meshes sphere_shown = Some (mkVector3 0 0 0, mkVector3 3 4 8))
    by (evaluate; resolve_minmax; reflexivity).
  rewrite E in U.
  destruct (H _ U) as (H1 & H2 & _); [vm_compute; discriminate|].
  split; [evaluate; reflexivity|]. split; [evaluate; reflexivity|].
  split; [exact U|]. split; [exact H1|]. split; [exact H2|].
  apply (proj1 (fitToAll_frames_registry (init page))). reflexivity.
Defined.

(** ** Which part of the state a function writes *)

Section HeapStep.
Variable R : nat -> Mesh -> Mesh -> Prop.
Hypothesis R_refl : forall i m, R i m m.
Hypothesis R_trans : forall i a b c, R i a b -> R i b c -> R i a c.

Lemma heap_step_refl st : heap_step R st st.
Proof.
  split; [destruct st; reflexivity|]. split; [reflexivity|].
  intros i m Hm. exists m. split; [exact Hm|apply R_refl].
Qed.

Lemma heap_step_trans st1 st2 st3 :
  heap_step R st1 st2 -> heap_step R st2 st3 -> heap_step R st1 st3.
Proof.
  intros (E1 & L1 & H1) (E2 & L2 & H2). split; [|split].
  - rewrite E2 at 1. rewrite E1 at 1. reflexivity.
  - congruence.
  - intros i m Hm. destruct (H1 i m Hm) as (m2 & Hm2 & R12).
    destruct (H2 i m2 Hm2) as (m3 & Hm3 & R23).
    exists m3. split; [exact Hm3|]. eapply R_trans; eassumption.
Qed.

Lemma heap_step_update_mesh f r st :
  (forall m, R r m (f m)) -> heap_step R st (update_mesh f r st).
Proof.
  intros Hf. unfold update_mesh. split; [reflexivity|]. split.
  - simpl. apply length_alter.
  - intros i m Hm. simpl. destruct (decide (i = r)) as [->|Hne].
    + exists (f m). rewrite list_lookup_alter_eq, Hm. split; [reflexivity|apply Hf].
    + exists m. rewrite list_lookup_alter_ne by congruence.
      split; [exact Hm|apply R_refl].
Qed.

Lemma heap_step_fold {A} (g : State -> A -> State) (l : list A) st :
  (forall s a, heap_step R s (g s a)) -> heap_step R st (fold_left g l st).
Proof.
  intros Hg. revert st. induction l as [|a l IH]; intros st; simpl.
  - apply heap_step_refl.
  - eapply heap_step_trans; [apply Hg|apply IH].
Qed.

End HeapStep.

(** The fields a [heap_step] leaves alone. *)
Lemma heap_step_fields R st st' :
  heap_step R st st' ->
  planes st' = planes st /\ meshes st' = meshes st /\
  selectedMeshId st' = selectedMeshId st /\ clipping st' = clipping st /\
  slice_pos st' = slice_pos st /\ camera_position st' = camera_position st /\
  controls_target st' = controls_target st /\ objects_list st' = objects_list st.
Proof. intros (E & _). rewrite E. simpl. repeat split. Qed.

Lemma fitCameraToObjects_camera_only margin st :
  exists p t, fitCameraToObjects margin st = set_camera p t st.
Proof. unfold fitCameraToObjects. destruct (meshes st); eauto. Qed.

Lemma fitCameraToObjects_fields margin st :
  let st' := fitCameraToObjects margin st in
  heap st' = heap st /\ planes st' = planes st /\ meshes st' = meshes st /\
  selectedMeshId st' = selectedMeshId st /\ clipping st' = clipping st /\
  slice_pos st' = slice_pos st /\ objects_list st' = objects_list st.
Proof.
  destruct (fitCameraToObjects_camera_only margin st) as (p & t & E).
  cbv zeta. rewrite E. simpl. repeat split.
Qed.

Lemma heap_fitCameraToObjects margin st :
  heap (fitCameraToObjects margin st) = heap st.
Proof. apply (fitCameraToObjects_fields margin st). Qed.

Lemma planes_fitCameraToObjects margin st :
  planes (fitCameraToObjects margin st) = planes st.
Proof. apply (fitCameraToObjects_fields margin st). Qed.

Lemma meshes_fitCameraToObjects margin st :
  meshes (fitCameraToObjects margin st) = meshes st.
Proof. apply (fitCameraToObjects_fields margin st). Qed.

Lemma selectedMeshId_fitCameraToObjects margin st :
  selectedMeshId (fitCameraToObjects margin st) = selectedMeshId st.
Proof. apply (fitCameraToObjects_fields margin st). Qed.

Lemma clipping_fitCameraToObjects margin st :
  clipping (fitCameraToObjects margin st) = clipping st.
Proof. apply (fitCameraToObjects_fields margin st). Qed.

Lemma objects_list_fitCameraToObjects margin st :
  objects_list (fitCameraToObjects margin st) = objects_list st.
Proof. apply (fitCameraToObjects_fields margin st). Qed.

Create Rewrite HintDb frame.

#[global] Hint Rewrite heap_fitCameraToObjects planes_fitCameraToObjects
  meshes_fitCameraToObjects selectedMeshId_fitCameraToObjects
  clipping_fitCameraToObjects objects_list_fitCameraToObjects : frame.

(** ** Registration *)

Lemma ListControls_add_loaded_meshes name col g now rnd st :
  meshes (ListControls.add_loaded name col g now rnd st) =
  meshes st ++ [mkEntry (make_id now rnd) (length (heap st)) true;
                mkEntry (make_id now rnd) (length (heap st)) false].
Proof.
  unfold ListControls.add_loaded, alloc_mesh, ListControls.addMeshToList.
  autorewrite with frame. simpl. rewrite <- app_assoc. reflexivity.
Qed.

Lemma ListControls_add_loaded_heap name col g now rnd st :
  heap (ListControls.add_loaded name col g now rnd st) =
  heap st ++ [mkMesh name g
                (mkMaterial col 60 true 1 DoubleSide (getActiveClippingPlanes st) false)
                (Some false) None].
Proof.
  unfold ListControls.add_loaded, alloc_mesh, ListControls.addMeshToList.
  autorewrite with frame. simpl.
  apply list_eq. intros i.
  destruct (decide (i = length (heap st))) as [->|Hne].
  - rewrite list_lookup_alter_eq.
    rewrite !lookup_app_r by lia. rewrite Nat.sub_diag. reflexivity.
  - rewrite list_lookup_alter_ne by congruence. 
    destruct (decide (i < length (heap st))%nat).
    + rewrite !lookup_app_l by assumption. reflexivity.
    + rewrite !lookup_app_r by lia.
      destruct (i - length (heap st))%nat as [|j] eqn:E; [lia|reflexivity].
Qed.

(** C1.  In the first script of [main.js] one successful upload appends two
    entries to the registry, both for the new mesh and under the same id:
    the one [addMeshToList] pushes and the one its caller pushes.  The new
    mesh is not visible. *)
Theorem upload_registers_entry_twice (st : State) (f : File) (now rnd : nat) :
  let st' := ListControls.handleFileUpload (Some f) now rnd st in
  let r := length (heap st) in
  meshes st' =
    meshes st ++ [mkEntry (make_id now rnd) r true; mkEntry (make_id now rnd) r false] /\
  length (meshes st') = (length (meshes st) + 2)%nat /\
  (mesh_visible <$> heap st' !! r) = Some (Some false).
Proof.
  cbv zeta. unfold ListControls.handleFileUpload.
  rewrite ListControls_add_loaded_meshes, ListControls_add_loaded_heap.
  split; [reflexivity|]. split.
  - rewrite length_app. reflexivity.
  - rewrite lookup_app_r by lia. rewrite Nat.sub_diag. reflexivity.
Qed.

(** ** Selection *)

(** C2.  In the second script of [main.js] a mesh is registered twice by one
    upload, and so is a bundled model in the core script; after [selectMesh]
    on its id two registry entries are visible, not one. *)
Theorem select_after_upload_shows_two_entries :
  let s1 := StaticControls.handleFileUpload (Some cube) 17 42 (init page) in
  let s2 := StaticControls.selectMesh (make_id 17 42) s1 in
  let c1 := Core.loadLocalSTL "./assets/models/car.stl" "car" (file_geometry cube) 17 42 (init page) in
  let c2 := Core.selectMesh (make_id 17 42) c1 in
  In (make_id 17 42) (map entry_id (meshes s1)) /\
  visible_entries s2 =
    [mkEntry "obj-17-42" 0 false; mkEntry "obj-17-42" 0 false] /\
  length (visible_entries s2) = 2%nat /\
  In (make_id 17 42) (map entry_id (meshes c1)) /\
  length (visible_entries c2) = 2%nat.
Proof. evaluate. repeat split; auto. Qed.

Lemma ListControls_selectMesh_eq id st :
  ListControls.selectMesh id st =
  ListControls.updateClippingPlanes
    (set_selectedMeshId (Some id)
       (sweep (fun o m => if String.eqb (entry_id o) id
                          then mesh_userData_visible m else Some false)
          (meshes st) st)).
Proof. reflexivity. Qed.

Lemma StaticControls_selectMesh_eq id st :
  StaticControls.selectMesh id st =
  StaticControls.updateClippingPlanes
    (set_selectedMeshId (Some id)
       (sweep (fun o _ => Some (if String.eqb (entry_id o) id then true else false))
          (meshes st) st)).
Proof. reflexivity. Qed.

Lemma Core_selectMesh_eq id st :
  Core.selectMesh id st =
  Core.updateClippingPlanes
    (set_selectedMeshId (Some id)
       (sweep (fun o _ => Some (String.eqb (entry_id o) id)) (meshes st) st)).
Proof. reflexivity. Qed.

Lemma only_visible_refl i m : only_visible i m m.
Proof. destruct m; reflexivity. Qed.

Lemma only_visible_trans i a b c :
  only_visible i a b -> only_visible i b c -> only_visible i a c.
Proof. unfold only_visible. intros -> ->. reflexivity. Qed.

Lemma sweep_only_visible g l st : heap_step only_visible st (sweep g l st).
Proof.
  apply heap_step_fold.
  - apply only_visible_refl.
  - apply only_visible_trans.
  - intros s o. apply heap_step_update_mesh.
    + apply only_visible_refl.
    + intros m. reflexivity.
Qed.

Lemma meshes_sweep g l st : meshes (sweep g l st) = meshes st.
Proof. apply (heap_step_fields _ _ _ (sweep_only_visible g l st)). Qed.

(** When the flag written for an entry depends on its mesh only, every mesh
    of the registry ends with that flag. *)
Lemma sweep_sets g (w : mref -> jsbool) l st :
  (forall o m, In o l -> g o m = w (entry_mesh o)) ->
  forall o m', In o l ->
    heap (sweep g l st) !! entry_mesh o = Some m' ->
    mesh_visible m' = w (entry_mesh o).
Proof.
  revert st. induction l as [|o1 l IH]; intros st Hg o m' Hin Hm'; [destruct Hin|].
  assert (Hkeep : forall r s,
    (forall m, heap s !! r = Some m -> mesh_visible m = w r) ->
    forall m, heap (sweep g l s) !! r = Some m -> mesh_visible m = w r).
  { clear -Hg. induction l as [|o2 l IH2]; intros r s Hs m Hm; [apply Hs, Hm|].
    simpl in Hm. revert Hm. apply IH2.
    - intros o m0 Ho. apply Hg. destruct Ho as [->|Ho]; [left; reflexivity|].
      right. right. exact Ho.
    - intros m0 Hm0. unfold update_mesh in Hm0. simpl in Hm0.
      destruct (decide (r = entry_mesh o2)) as [->|Hne].
      + rewrite list_lookup_alter_eq in Hm0.
        destruct (heap s !! entry_mesh o2) as [m1|]; [|discriminate].
        injection Hm0 as <-. simpl. apply Hg. right. left. reflexivity.
      + rewrite list_lookup_alter_ne in Hm0 by congruence. apply Hs, Hm0. }
  simpl in Hm'. destruct Hin as [->|Hin].
  - revert Hm'. apply Hkeep. intros m Hm.
    unfold update_mesh in Hm. simpl in Hm.
    rewrite list_lookup_alter_eq in Hm.
    destruct (heap st !! entry_mesh o) as [m1|]; [|discriminate].
    injection Hm as <-. simpl. apply Hg. left. reflexivity.
  - revert Hm'. apply IH; [|exact Hin].
    intros o' m Ho'. apply Hg. right. exact Ho'.
Qed.

Lemma find_id_absent id l :
  ~ In id (map entry_id l) ->
  find (fun m => String.eqb (entry_id m) id) l = None.
Proof.
  induction l as [|o l IH]; intros Hn; simpl; [reflexivity|].
  destruct (String.eqb_spec (entry_id o) id) as [E|E].
  - exfalso. apply Hn. left. exact E.
  - apply IH. intros Hin. apply Hn. right. exact Hin.
Qed.

Lemma heap_step_only_visible_materials st st' :
  heap_step only_visible st st' ->
  map mesh_material (heap st') = map mesh_material (heap st).
Proof.
  intros (_ & L & H). apply list_eq. intros i.
  rewrite !list_lookup_fmap.
  destruct (heap st !! i) as [m|] eqn:E.
  - destruct (H i m E) as (m' & -> & ->). reflexivity.
  - rewrite (lookup_ge_None_2 (heap st')); [reflexivity|].
    rewrite L. apply lookup_ge_None_1, E.
Qed.

Lemma sweep_absent_hidden_and_recorded g id st :
  (forall o m, In o (meshes st) -> g o m = Some false) ->
  hidden_and_recorded id st (set_selectedMeshId (Some id) (sweep g (meshes st) st)).
Proof.
  intros Hg.
  pose proof (sweep_only_visible g (meshes st) st) as Hs.
  destruct (heap_step_fields _ _ _ Hs) as (E1 & E2 & E3 & E4 & E5 & E6 & E7 & E8).
  unfold hidden_and_recorded. simpl.
  repeat (split; [first [reflexivity | assumption]|]).
  split; [apply heap_step_only_visible_materials, Hs|]. split.
  - apply Hs.
  - intros o Ho. unfold entry_visible. simpl.
    destruct (heap (sweep g (meshes st) st) !! entry_mesh o) as [m'|] eqn:E;
      [|reflexivity].
    rewrite (sweep_sets g (fun _ => Some false) (meshes st) st Hg o m' Ho E).
    reflexivity.
Qed.

(** C6, as amended.  For an id that no registry entry carries, [selectMesh]
    hides every registered mesh and records the id as the current selection
    (whatever was selected before); the clipping configuration, the plane
    objects, the registry and the material of every mesh are as before.  In
    the core script this needs the id to be a non-empty string. *)
Theorem select_absent_id_records_it (id : string) (st : State) :
  ~ In id (map entry_id (meshes st)) ->
  hidden_and_recorded id st (StaticControls.selectMesh id st) /\
  (id <> EmptyString -> hidden_and_recorded id st (Core.selectMesh id st)).
Proof.
  intros Habs.
  assert (Hno : forall o, In o (meshes st) -> String.eqb (entry_id o) id = false).
  { intros o Ho. apply String.eqb_neq. intros E. apply Habs.
    rewrite <- E. apply in_map, Ho. }
  split.
  - rewrite StaticControls_selectMesh_eq.
    unfold StaticControls.updateClippingPlanes, find_selected. simpl.
    rewrite meshes_sweep, (find_id_absent id (meshes st) Habs).
    apply sweep_absent_hidden_and_recorded.
    intros o m Ho. rewrite (Hno o Ho). reflexivity.
  - intros Hne. rewrite Core_selectMesh_eq.
    unfold Core.updateClippingPlanes, find_selected. simpl.
    rewrite meshes_sweep, (find_id_absent id (meshes st) Habs).
    destruct id as [|c id']; [congruence|]. simpl.
    apply sweep_absent_hidden_and_recorded.
    intros o m Ho. rewrite (Hno o Ho). reflexivity.
Qed.

Lemma select_absent_id_records_it_witness :
  hidden_and_recorded "obj-0-0" one_selected
    (StaticControls.selectMesh "obj-0-0" one_selected) /\
  hidden_and_recorded "obj-0-0" one_selected
    (Core.selectMesh "obj-0-0" one_selected).
Proof.
  assert (Habs : ~ In "obj-0-0" (map entry_id (meshes one_selected))).
  { vm_compute. intros [H|[H|[]]]; discriminate H. }
  split.
  - apply (proj1 (select_absent_id_records_it "obj-0-0" one_selected Habs)).
  - apply (proj2 (select_absent_id_records_it "obj-0-0" one_selected Habs)).
    discriminate.
Defined.

(** C6 fails as stated: the id [obj-0-0] is not in the registry, and after
    [selectMesh] on it the recorded selection is no longer what it was. *)
Lemma select_absent_id_changes_selection :
  ~ In "obj-0-0" (map entry_id (meshes one_selected)) /\
  selectedMeshId one_selected = Some "obj-17-42" /\
  selectedMeshId (StaticControls.selectMesh "obj-0-0" one_selected) = Some "obj-0-0" /\
  selectedMeshId (Core.selectMesh "obj-0-0" one_selected) = Some "obj-0-0" /\
  selectedMeshId (StaticControls.selectMesh "obj-0-0" one_selected)
    <> selectedMeshId one_selected.
Proof.
  vm_compute. repeat split.
  - intros [H|[H|[]]]; discriminate H.
  - discriminate.
Qed.

(** ** Opacity and visibility of the selected mesh *)

Lemma update_mesh_lookup f r st m :
  heap st !! r = Some m ->
  heap (update_mesh f r st) !! r = Some (f m) /\
  (forall r', r' <> r -> heap (update_mesh f r st) !! r' = heap st !! r') /\
  update_mesh f r st = set_heap (heap (update_mesh f r st)) st.
Proof.
  intros Hm. unfold update_mesh. simpl. split; [|split].
  - rewrite list_lookup_alter_eq, Hm. reflexivity.
  - intros r' Hne. apply list_lookup_alter_ne. congruence.
  - reflexivity.
Qed.

(** C7.  [setOpacityForSelected(v)] ([dynamicSelectedOpacity(v)] in the
    core script), for any number [v]: when a mesh is selected, the opacity
    of its material becomes [v] as it is, nothing else of that mesh changes,
    no other mesh changes and no other part of the state changes; when
    nothing is selected, or the selected id is not registered, the state is
    as before. *)
Theorem setOpacity_writes_selected_material (v : R) (st : State) :
  let st' := StaticControls.setOpacityForSelected v st in
  Core.dynamicSelectedOpacity v st = st' /\
  (forall obj m,
     falsy_id (selectedMeshId st) = false ->
     find_selected st = Some obj ->
     heap st !! entry_mesh obj = Some m ->
     heap st' !! entry_mesh obj =
       Some (with_material (with_opacity v (mesh_material m)) m) /\
     (mat_opacity ∘ mesh_material <$> heap st' !! entry_mesh obj) = Some v /\
     (forall r, r <> entry_mesh obj -> heap st' !! r = heap st !! r) /\
     st' = set_heap (heap st') st) /\
  (selectedMeshId st = None -> st' = st) /\
  (find_selected st = None -> st' = st).
Proof.
  cbv zeta. split; [reflexivity|]. split; [|split].
  - intros obj m Hsel Hfind Hm.
    unfold StaticControls.setOpacityForSelected. rewrite Hsel, Hfind.
    destruct (update_mesh_lookup
                (fun m => with_material (with_opacity v (mesh_material m)) m)
                (entry_mesh obj) st m Hm) as (E1 & E2 & E3).
    split; [exact E1|]. split; [rewrite E1; reflexivity|].
    split; [exact E2|exact E3].
  - intros Hnone. unfold StaticControls.setOpacityForSelected.
    rewrite Hnone. reflexivity.
  - intros Hnone. unfold StaticControls.setOpacityForSelected.
    rewrite Hnone. destruct (falsy_id (selectedMeshId st)); reflexivity.
Qed.

(** An opacity outside [0,1] on the selected mesh of [one_selected], any
    opacity on the state after [init()], and any opacity when the selected
    id is not registered. *)
Lemma setOpacity_writes_selected_material_witness :
  (mat_opacity ∘ mesh_material <$>
     heap (StaticControls.setOpacityForSelected 2.5 one_selected) !! 0%nat) = Some 2.5 /\
  StaticControls.setOpacityForSelected (-3) (init page) = init page /\
  StaticControls.setOpacityForSelected 0.5 unregistered_selected = unregistered_selected.
Proof.
  split; [|split].
  - refine (proj1 (proj2 (proj1 (proj2
      (setOpacity_writes_selected_material 2.5 one_selected))
      (mkEntry "obj-17-42" 0 false)
      (mkMesh "cube" (file_geometry cube)
         (mkMaterial 0xc8cfd6%N 60 true 1 DoubleSide [] true) (Some true) None)
      _ _ _))); evaluate; reflexivity.
  - apply (proj1 (proj2 (proj2 (setOpacity_writes_selected_material (-3) (init page))))).
    reflexivity.
  - apply (proj2 (proj2 (proj2
      (setOpacity_writes_selected_material 0.5 unregistered_selected)))).
    evaluate. reflexivity.
Defined.


(** ** The persistent flag of the first script *)

Section Calm.
Variable R : nat -> Mesh -> Mesh -> Prop.
Hypothesis R_refl : forall i m, R i m m.
Hypothesis R_trans : forall i a b c, R i a b -> R i b c -> R i a c.
Hypothesis R_material : forall i m mat, R i m (with_material mat m).
Hypothesis R_hide : forall i m, R i m (with_visible (Some false) m).
Hypothesis R_flag : forall i m, R i m (with_visible (mesh_userData_visible m) m).










End Calm.




























(** ** The visibility buttons *)










(** ** The normals of the clipping planes *)

Lemma planes_grown_refl st : planes_grown st st.
Proof. split; [exists []; rewrite app_nil_r; reflexivity|reflexivity]. Qed.

Lemma planes_grown_same st st' :
  planes st' = planes st -> clipping st' = clipping st -> planes_grown st st'.
Proof. intros E1 E2. split; [exists []; rewrite app_nil_r; exact E1|exact E2]. Qed.

Lemma planes_grown_trans st1 st2 st3 :
  planes_grown st1 st2 -> planes_grown st2 st3 -> planes_grown st1 st3.
Proof.
  intros ((e1 & E1) & C1) ((e2 & E2) & C2). split; [|congruence].
  exists (e1 ++ e2). rewrite E2, E1, app_assoc. reflexivity.
Qed.

Lemma normals_fixed_grown st st' :
  planes_grown st st' -> normals_fixed st -> normals_fixed st'.
Proof.
  intros ((e & E) & C) H a. rewrite C, E. specialize (H a).
  destruct (planes st !! plane (clip_get a (clipping st))) as [p|] eqn:Hp;
    [|discriminate H].
  rewrite lookup_app_l; [rewrite Hp; exact H|].
  apply lookup_lt_Some in Hp. exact Hp.
Qed.

Lemma clip_get_set a a' s c :
  clip_get a' (clip_set a s c) = if decide (a' = a) then s else clip_get a' c.
Proof. destruct a, a'; reflexivity. Qed.

Lemma normals_fixed_init sliders : normals_fixed (init sliders).
Proof. intros []; reflexivity. Qed.

Lemma normals_fixed_set_enabled a checked st :
  normals_fixed st -> normals_fixed (set_enabled a checked st).
Proof.
  intros H a'. unfold set_enabled. simpl. rewrite clip_get_set.
  destruct (decide (a' = a)) as [->|_]; apply H.
Qed.

Lemma normals_fixed_set_constant a v st :
  normals_fixed st -> normals_fixed (set_constant a v st).
Proof.
  intros H a'. unfold set_constant. simpl. specialize (H a').
  rewrite list_lookup_alter.
  destruct (decide (plane (clip_get a (clipping st)) = plane (clip_get a' (clipping st))))
    as [->|_]; [|exact H].
  destruct (planes st !! plane (clip_get a' (clipping st))); [exact H|discriminate H].
Qed.

Lemma planes_sweep g l st : planes (sweep g l st) = planes st.
Proof. apply (heap_step_fields _ _ _ (sweep_only_visible g l st)). Qed.

Lemma clipping_sweep g l st : clipping (sweep g l st) = clipping st.
Proof. apply (heap_step_fields _ _ _ (sweep_only_visible g l st)). Qed.

Lemma selectedMeshId_sweep g l st : selectedMeshId (sweep g l st) = selectedMeshId st.
Proof. apply (heap_step_fields _ _ _ (sweep_only_visible g l st)). Qed.

Lemma slice_pos_sweep g l st : slice_pos (sweep g l st) = slice_pos st.
Proof. apply (heap_step_fields _ _ _ (sweep_only_visible g l st)). Qed.

#[global] Hint Rewrite planes_sweep clipping_sweep selectedMeshId_sweep
  slice_pos_sweep meshes_sweep : frame.

(** *** The first script *)

Lemma ListControls_updateClippingPlanes_grown st :
  planes_grown st (ListControls.updateClippingPlanes st).
Proof.
  unfold ListControls.updateClippingPlanes.
  destruct (find_selected st); apply planes_grown_same; reflexivity.
Qed.

Lemma ListControls_selectMesh_grown id st :
  planes_grown st (ListControls.selectMesh id st).
Proof.
  rewrite ListControls_selectMesh_eq.
  eapply planes_grown_trans; [|apply ListControls_updateClippingPlanes_grown].
  apply planes_grown_same; simpl; autorewrite with frame; reflexivity.
Qed.

Lemma ListControls_add_loaded_grown name col g now rnd st :
  planes_grown st (ListControls.add_loaded name col g now rnd st).
Proof.
  apply planes_grown_same;
    unfold ListControls.add_loaded, alloc_mesh, ListControls.addMeshToList;
    autorewrite with frame; reflexivity.
Qed.

Lemma ListControls_visBtn_click_grown id mesh st :
  planes_grown st (ListControls.visBtn_click id mesh st).
Proof.
  unfold ListControls.visBtn_click.
  match goal with |- context [id_eqb id ?s] => destruct (id_eqb id s) end;
    apply planes_grown_same; reflexivity.
Qed.

Lemma ListControls_opacity_listener_grown id mesh v st :
  planes_grown st (ListControls.opacity_listener id mesh v st).
Proof.
  unfold ListControls.opacity_listener.
  destruct (id_eqb id (selectedMeshId st)); apply planes_grown_same; reflexivity.
Qed.

Lemma resetView_grown st : planes_grown st (resetView st).
Proof.
  unfold resetView. apply planes_grown_same; autorewrite with frame; reflexivity.
Qed.

Lemma ListControls_step_normals st o :
  normals_fixed st -> normals_fixed (ListControls.step st o).
Proof.
  intros H.
  destruct o as [[file|] now rnd|path name g now rnd|k|k|k|k|k|k v|a c|a v|];
    simpl; unfold ListControls.on_item;
    try (destruct (objects_list st !! k) as [it|]; [|exact H]).
  - revert H. apply normals_fixed_grown, ListControls_add_loaded_grown.
  - exact H.
  - revert H. apply normals_fixed_grown, ListControls_add_loaded_grown.
  - revert H. apply normals_fixed_grown, ListControls_selectMesh_grown.
  - revert H. apply normals_fixed_grown.
    eapply planes_grown_trans;
      [apply ListControls_visBtn_click_grown|apply ListControls_selectMesh_grown].
  - revert H. apply normals_fixed_grown.
    eapply planes_grown_trans;
      [apply ListControls_opacity_listener_grown|apply ListControls_selectMesh_grown].
  - revert H. apply normals_fixed_grown.
    eapply planes_grown_trans;
      [apply ListControls_opacity_listener_grown|apply ListControls_selectMesh_grown].
  - revert H. apply normals_fixed_grown.
    eapply planes_grown_trans;
      [apply ListControls_opacity_listener_grown|apply ListControls_selectMesh_grown].
  - revert H. apply normals_fixed_grown, ListControls_opacity_listener_grown.
  - apply (normals_fixed_grown _ _ (ListControls_updateClippingPlanes_grown _)).
    apply normals_fixed_set_enabled, H.
  - apply (normals_fixed_grown _ _ (ListControls_updateClippingPlanes_grown _)).
    apply normals_fixed_set_constant, H.
  - revert H. apply normals_fixed_grown, resetView_grown.
Qed.

(** *** The second script *)

Lemma StaticControls_updateClippingPlanes_grown st :
  planes_grown st (StaticControls.updateClippingPlanes st).
Proof.
  unfold StaticControls.updateClippingPlanes.
  destruct (find_selected st) as [obj|]; [|apply planes_grown_refl].
  unfold alloc_plane.
  destruct (enabled (clip_x (clipping st))); simpl;
    destruct (enabled (clip_y (clipping st))); simpl;
    destruct (enabled (clip_z (clipping st))); simpl;
    (split; [|reflexivity]);
    first [exists []; rewrite app_nil_r; reflexivity
          |rewrite <- ?app_assoc; eexists; reflexivity].
Qed.

Lemma StaticControls_selectMesh_grown id st :
  planes_grown st (StaticControls.selectMesh id st).
Proof.
  rewrite StaticControls_selectMesh_eq.
  eapply planes_grown_trans; [|apply StaticControls_updateClippingPlanes_grown].
  apply planes_grown_same; simpl; autorewrite with frame; reflexivity.
Qed.

Lemma StaticControls_add_loaded_grown name col g now rnd st :
  planes_grown st (StaticControls.add_loaded name col g now rnd st).
Proof.
  apply planes_grown_same;
    unfold StaticControls.add_loaded, alloc_mesh, StaticControls.addMeshToList;
    autorewrite with frame; reflexivity.
Qed.

Lemma StaticControls_visBtn_click_grown st :
  planes_grown st (StaticControls.visBtn_click st).
Proof.
  unfold StaticControls.visBtn_click.
  destruct (falsy_id (selectedMeshId st)); [apply planes_grown_refl|].
  destruct (find_selected st); apply planes_grown_same; reflexivity.
Qed.

Lemma StaticControls_setOpacityForSelected_grown v st :
  planes_grown st (StaticControls.setOpacityForSelected v st).
Proof.
  unfold StaticControls.setOpacityForSelected.
  destruct (falsy_id (selectedMeshId st)); [apply planes_grown_refl|].
  destruct (find_selected st); apply planes_grown_same; reflexivity.
Qed.

Lemma StaticControls_step_normals st o :
  normals_fixed st -> normals_fixed (StaticControls.step st o).
Proof.
  intros H.
  destruct o as [[file|] now rnd|path name g now rnd|k| | | | |v|a c|a v|]; simpl.
  - revert H. apply normals_fixed_grown, StaticControls_add_loaded_grown.
  - exact H.
  - revert H. apply normals_fixed_grown, StaticControls_add_loaded_grown.
  - destruct (objects_list st !! k) as [it|]; [|exact H].
    revert H. apply normals_fixed_grown, StaticControls_selectMesh_grown.
  - revert H. apply normals_fixed_grown, StaticControls_visBtn_click_grown.
  - revert H. apply normals_fixed_grown, StaticControls_setOpacityForSelected_grown.
  - revert H. apply normals_fixed_grown, StaticControls_setOpacityForSelected_grown.
  - revert H. apply normals_fixed_grown, StaticControls_setOpacityForSelected_grown.
  - revert H. apply normals_fixed_grown, StaticControls_setOpacityForSelected_grown.
  - apply (normals_fixed_grown _ _ (StaticControls_updateClippingPlanes_grown _)).
    apply normals_fixed_set_enabled, H.
  - apply (normals_fixed_grown _ _ (StaticControls_updateClippingPlanes_grown _)).
    apply normals_fixed_set_constant, H.
  - revert H. apply normals_fixed_grown, resetView_grown.
Qed.

(** *** The core script, which replaces the plane objects *)

(** A new plane object with the normal of the axis becomes the plane of the
    axis. *)
Lemma normals_fixed_replace a c en st :
  normals_fixed st ->
  normals_fixed
    (set_clipping (clip_set a (mkAxisState en (length (planes st))) (clipping st))
       (set_planes (planes st ++ [mkPlane (axis_normal a) c]) st)).
Proof.
  intros H a'. simpl. rewrite clip_get_set.
  destruct (decide (a' = a)) as [->|_]; simpl.
  - rewrite lookup_app_r by lia. rewrite Nat.sub_diag. reflexivity.
  - specialize (H a').
    destruct (planes st !! plane (clip_get a' (clipping st))) as [p|] eqn:Hp;
      [|discriminate H].
    rewrite lookup_app_l; [rewrite Hp; exact H|].
    apply lookup_lt_Some in Hp. exact Hp.
Qed.

Lemma Core_clip_axis_normals a center ps st :
  normals_fixed st -> normals_fixed (snd (Core.clip_axis a center (ps, st))).
Proof.
  intros H. unfold Core.clip_axis.
  destruct (enabled (clip_get a (clipping st))); [|exact H].
  apply (normals_fixed_replace a _ _ st H).
Qed.

Lemma Core_clip_target_normals st o :
  normals_fixed st -> normals_fixed (Core.clip_target st o).
Proof.
  intros H. unfold Core.clip_target.
  pose proof (Core_clip_axis_normals ax_x
    (Box3_getCenter (setFromObject st (entry_mesh o))) [] st H) as Hx.
  destruct (Core.clip_axis ax_x _ ([], st)) as (px & sx). simpl in Hx.
  pose proof (Core_clip_axis_normals ax_y
    (Box3_getCenter (setFromObject st (entry_mesh o))) px sx Hx) as Hy.
  destruct (Core.clip_axis ax_y _ (px, sx)) as (py & sy). simpl in Hy.
  pose proof (Core_clip_axis_normals ax_z
    (Box3_getCenter (setFromObject st (entry_mesh o))) py sy Hy) as Hz.
  destruct (Core.clip_axis ax_z _ (py, sy)) as (pz & sz). simpl in Hz.
  exact Hz.
Qed.

Lemma Core_updateClippingPlanes_normals st :
  normals_fixed st -> normals_fixed (Core.updateClippingPlanes st).
Proof.
  intros H. unfold Core.updateClippingPlanes.
  assert (Hfold : forall l s, normals_fixed s -> normals_fixed (fold_left Core.clip_target l s)).
  { induction l as [|o l IH]; intros s Hs; [exact Hs|].
    apply IH, Core_clip_target_normals, Hs. }
  destruct (falsy_id (selectedMeshId st)).
  - destruct (meshes st) eqn:E; [exact H|]. apply Hfold, H.
  - destruct (find_selected st); [|exact H]. apply Hfold, H.
Qed.

Lemma Core_selectMesh_normals id st :
  normals_fixed st -> normals_fixed (Core.selectMesh id st).
Proof.
  intros H. rewrite Core_selectMesh_eq.
  apply Core_updateClippingPlanes_normals.
  revert H. apply normals_fixed_grown.
  apply planes_grown_same; simpl; autorewrite with frame; reflexivity.
Qed.

Lemma Core_reset_axis_normals bbox st a :
  normals_fixed st -> normals_fixed (Core.reset_axis bbox st a).
Proof.
  intros H. unfold Core.reset_axis, alloc_plane.
  destruct bbox as [[mn mx]|].
  - apply (normals_fixed_replace a 0 _ (set_slice_pos _ st)). exact H.
  - apply (normals_fixed_replace a 0 _ st). exact H.
Qed.


Lemma normals_fixed_fitCameraToObjects margin st :
  normals_fixed st -> normals_fixed (fitCameraToObjects margin st).
Proof.
  apply normals_fixed_grown.
  apply planes_grown_same; autorewrite with frame; reflexivity.
Qed.

Lemma Core_handleFileUpload_normals file now rnd st :
  normals_fixed st -> normals_fixed (Core.handleFileUpload file now rnd st).
Proof.
  intros H. destruct file as [f|]; [|exact H].
  unfold Core.handleFileUpload, Core.cameraPosition, alloc_mesh, Core.addMeshToList.
  cbv beta iota zeta.
  apply normals_fixed_fitCameraToObjects.
  simpl fold_left.
  repeat apply Core_reset_axis_normals.
  apply Core_selectMesh_normals.
  exact H.
Qed.

Lemma Core_loadLocalSTL_normals path name g now rnd st :
  normals_fixed st -> normals_fixed (Core.loadLocalSTL path name g now rnd st).
Proof.
  apply normals_fixed_grown.
  apply planes_grown_same;
    unfold Core.loadLocalSTL, Core.cameraPosition, alloc_mesh, Core.addMeshToList;
    autorewrite with frame; reflexivity.
Qed.

Lemma Core_visBtn_click_grown st : planes_grown st (Core.visBtn_click st).
Proof. apply StaticControls_visBtn_click_grown. Qed.

Lemma Core_dynamicSelectedOpacity_grown v st :
  planes_grown st (Core.dynamicSelectedOpacity v st).
Proof. apply StaticControls_setOpacityForSelected_grown. Qed.

Lemma Core_step_normals st o :
  normals_fixed st -> normals_fixed (Core.step st o).
Proof.
  intros H.
  destruct o as [file now rnd|path name g now rnd|k| | | | |v|a c|a v|]; simpl.
  - apply Core_handleFileUpload_normals, H.
  - apply Core_loadLocalSTL_normals, H.
  - destruct (objects_list st !! k) as [it|]; [|exact H].
    apply Core_selectMesh_normals, H.
  - revert H. apply normals_fixed_grown, Core_visBtn_click_grown.
  - revert H. apply normals_fixed_grown, Core_dynamicSelectedOpacity_grown.
  - revert H. apply normals_fixed_grown, Core_dynamicSelectedOpacity_grown.
  - revert H. apply normals_fixed_grown, Core_dynamicSelectedOpacity_grown.
  - revert H. apply normals_fixed_grown, Core_dynamicSelectedOpacity_grown.
  - apply Core_updateClippingPlanes_normals, normals_fixed_set_enabled, H.
  - apply Core_updateClippingPlanes_normals, normals_fixed_set_constant, H.
  - revert H. apply normals_fixed_grown, resetView_grown.
Qed.

(** C9.  After any sequence of user actions (uploads and bundled models,
    selections, switching a slice on or off, moving a slice slider, the
    visibility and opacity controls, resetting the view), in each of the
    three scripts, the plane of every axis has the negative unit vector of
    its axis as normal: (-1,0,0) for x, (0,-1,0) for y, (0,0,-1) for z. *)
Theorem clipping_normals_never_change (sliders : SlicePos) :
  (forall ops, normals_fixed (ListControls.run ops (init sliders))) /\
  (forall ops, normals_fixed (StaticControls.run ops (init sliders))) /\
  (forall ops, normals_fixed (Core.run ops (init sliders))) /\
  axis_normal ax_x = mkVector3 (-1) 0 0 /\
  axis_normal ax_y = mkVector3 0 (-1) 0 /\
  axis_normal ax_z = mkVector3 0 0 (-1).
Proof.
  pose proof (normals_fixed_init sliders) as H0. revert H0.
  generalize (init sliders). intros st0 H0.
  split; [|split; [|split; [|repeat split]]].
  - intros ops. revert st0 H0. induction ops as [|o ops IH]; intros st0 H0; [exact H0|].
    apply IH, ListControls_step_normals, H0.
  - intros ops. revert st0 H0. induction ops as [|o ops IH]; intros st0 H0; [exact H0|].
    apply IH, StaticControls_step_normals, H0.
  - intros ops. revert st0 H0. induction ops as [|o ops IH]; intros st0 H0; [exact H0|].
    apply IH, Core_step_normals, H0.
Qed.

(** ** The planes a material is given *)

Lemma length_raw_planes st : length (raw_planes st) = enabled_count st.
Proof.
  unfold raw_planes, getActiveClippingPlanes, enabled_count.
  rewrite length_map.
  destruct (enabled (clip_x (clipping st))), (enabled (clip_y (clipping st))),
    (enabled (clip_z (clipping st))); reflexivity.
Qed.

Lemma length_centered_planes st center :
  length (centered_planes st center) = enabled_count st.
Proof.
  unfold centered_planes, enabled_count.
  destruct (enabled (clip_x (clipping st))), (enabled (clip_y (clipping st))),
    (enabled (clip_z (clipping st))); reflexivity.
Qed.

Lemma ListControls_updateClippingPlanes_applied st obj m :
  find_selected st = Some obj ->
  heap st !! entry_mesh obj = Some m ->
  clippingPlanes_of (ListControls.updateClippingPlanes st) (entry_mesh obj) =
  raw_planes st.
Proof.
  intros Hf Hm. unfold ListControls.updateClippingPlanes. rewrite Hf.
  unfold clippingPlanes_of, update_mesh. simpl.
  rewrite list_lookup_alter_eq, Hm. reflexivity.
Qed.

Lemma normals_fixed_config_valid st : normals_fixed st -> config_valid st.
Proof.
  intros H a. specialize (H a).
  destruct (planes st !! plane (clip_get a (clipping st))) as [p|] eqn:E;
    [|discriminate H].
  apply lookup_lt_Some in E. exact E.
Qed.

Lemma plane_at_grown st extra (r : pref) :
  (r < length (planes st))%nat ->
  plane_at (set_planes (planes st ++ extra) st) r = plane_at st r.
Proof.
  intros Hr. unfold plane_at. simpl. rewrite lookup_app_l by exact Hr. reflexivity.
Qed.

Lemma read_new_planes (l extra : list Plane) d :
  map (fun r => default d ((l ++ extra) !! r)) (seq (length l) (length extra)) = extra.
Proof.
  revert l. induction extra as [|p extra IH]; intros l; [reflexivity|].
  simpl. rewrite list_lookup_middle by reflexivity. simpl. f_equal.
  specialize (IH (l ++ [p])). rewrite length_app in IH. simpl in IH.
  rewrite Nat.add_1_r in IH. rewrite <- IH at 2.
  apply map_ext. intros r. rewrite <- app_assoc. reflexivity.
Qed.

(** [updateClippingPlanes] of the second script, in one piece: the centred
    planes are put in the store and the selected mesh is given them. *)
Lemma StaticControls_updateClippingPlanes_eq st obj :
  config_valid st ->
  find_selected st = Some obj ->
  StaticControls.updateClippingPlanes st =
  let center := Box3_getCenter (setFromObject st (entry_mesh obj)) in
  update_mesh
    (fun m => with_material
                (with_clippingPlanes (seq (length (planes st)) (enabled_count st))
                   (mesh_material m)) m)
    (entry_mesh obj)
    (set_planes (planes st ++ centered_planes st center) st).
Proof.
  intros Hv Hf. unfold StaticControls.updateClippingPlanes. rewrite Hf.
  pose proof (Hv ax_x) as Hx. pose proof (Hv ax_y) as Hy. pose proof (Hv ax_z) as Hz.
  simpl in Hx, Hy, Hz.
  unfold centered_planes, enabled_count, alloc_plane. cbv zeta.
  destruct (enabled (clip_x (clipping st))) eqn:Ex;
    destruct (enabled (clip_y (clipping st))) eqn:Ey;
    destruct (enabled (clip_z (clipping st))) eqn:Ez;
    cbn [clipping set_planes planes app]; rewrite ?Ex, ?Ey, ?Ez;
    cbn [clipping set_planes planes app];
    repeat match goal with
      | |- context [plane_at (set_planes (planes st ++ ?e) st) ?r] =>
          rewrite (plane_at_grown st e r) by assumption
      | |- context [plane_at (set_planes ((planes st ++ ?e1) ++ ?e2) ?s) ?r] =>
          replace (plane_at (set_planes ((planes st ++ e1) ++ e2) s) r)
            with (plane_at st r)
            by (unfold plane_at; simpl; rewrite !lookup_app_l
                  by (rewrite ?length_app; simpl; lia); reflexivity)
      end;
    rewrite ?length_app, <- ?app_assoc; simpl;
    rewrite ?Nat.add_1_r, ?app_nil_r, ?Ex, ?Ey, ?Ez; reflexivity.
Qed.

Lemma StaticControls_updateClippingPlanes_applied st obj m :
  config_valid st ->
  find_selected st = Some obj ->
  heap st !! entry_mesh obj = Some m ->
  clippingPlanes_of (StaticControls.updateClippingPlanes st) (entry_mesh obj) =
  centered_planes st (Box3_getCenter (setFromObject st (entry_mesh obj))).
Proof.
  intros Hv Hf Hm. rewrite (StaticControls_updateClippingPlanes_eq st obj Hv Hf).
  cbv zeta. unfold clippingPlanes_of, update_mesh. simpl.
  rewrite list_lookup_alter_eq, Hm. simpl. unfold plane_at. simpl.
  rewrite <- (length_centered_planes st
                (Box3_getCenter (setFromObject st (entry_mesh obj)))).
  apply read_new_planes.
Qed.


Lemma config_valid_set_enabled a c st :
  config_valid st -> config_valid (set_enabled a c st).
Proof.
  intros H a'. unfold set_enabled. simpl. rewrite clip_get_set.
  destruct (decide (a' = a)) as [->|_]; apply H.
Qed.

Lemma raw_planes_per_axis st :
  normals_fixed st ->
  raw_planes st = planes_per_axis (axis_enabled st) (configured_constant st).
Proof.
  intros Hn.
  assert (Hp : forall a, plane_at st (plane (clip_get a (clipping st))) =
                         mkPlane (axis_normal a) (configured_constant st a)).
  { intros a. specialize (Hn a). unfold configured_constant, plane_at in *.
    destruct (planes st !! plane (clip_get a (clipping st))) as [[n c]|];
      [|discriminate Hn].
    simpl in *. injection Hn as ->. reflexivity. }
  pose proof (Hp ax_x) as Hx. pose proof (Hp ax_y) as Hy. pose proof (Hp ax_z) as Hz.
  unfold raw_planes, getActiveClippingPlanes, planes_per_axis, axis_enabled.
  cbn [clip_get concat map] in *.
  destruct (enabled (clip_x (clipping st))), (enabled (clip_y (clipping st))),
    (enabled (clip_z (clipping st))); simpl; rewrite ?Hx, ?Hy, ?Hz; reflexivity.
Qed.

Lemma centered_planes_per_axis st center :
  centered_planes st center =
  planes_per_axis (axis_enabled st)
    (fun a => configured_constant st a - coordinate a center).
Proof.
  unfold centered_planes, planes_per_axis, axis_enabled, configured_constant.
  cbn [clip_get concat map].
  destruct (enabled (clip_x (clipping st))), (enabled (clip_y (clipping st))),
    (enabled (clip_z (clipping st))); reflexivity.
Qed.

(** C3, as amended.  For a selected mesh, [updateClippingPlanes] gives the
    material one plane per enabled axis and none for a disabled axis, in the
    order x, y, z, each with the negative unit vector of its axis as normal:
    in the first script of [main.js] with the configured constant of the
    axis as offset, in the second script with that constant less the
    coordinate of the centre of the box of the selected mesh on the axis.
    So no axis enabled gives no plane.  With only the x axis enabled and the
    constant 5 configured, the first script gives the one plane with normal
    (-1,0,0) and offset 5; the second script gives the one plane with normal
    (-1,0,0) and offset 5 less the x coordinate of the centre.  Disabling
    the axis again gives no plane in both. *)
Theorem one_plane_per_enabled_axis (st : State) (obj : Entry) (m : Mesh) :
  normals_fixed st ->
  find_selected st = Some obj ->
  heap st !! entry_mesh obj = Some m ->
  let r := entry_mesh obj in
  let center := Box3_getCenter (setFromObject st r) in
  let raw s := clippingPlanes_of (ListControls.updateClippingPlanes s) r in
  let centered s := clippingPlanes_of (StaticControls.updateClippingPlanes s) r in
  length (getActiveClippingPlanes st) = enabled_count st /\
  length (raw st) = enabled_count st /\
  length (centered st) = enabled_count st /\
  (enabled_count st = 0%nat -> raw st = [] /\ centered st = []) /\
  (enabled (clip_x (clipping st)) = true ->
   enabled (clip_y (clipping st)) = false ->
   enabled (clip_z (clipping st)) = false ->
   constant (plane_at st (plane (clip_x (clipping st)))) = 5 ->
   raw st = [mkPlane (mkVector3 (-1) 0 0) 5] /\
   centered st = [mkPlane (mkVector3 (-1) 0 0) (5 - vx center)] /\
   raw (set_enabled ax_x false st) = [] /\
   centered (set_enabled ax_x false st) = []) /\
  getActiveClippingPlanes st =
    concat (map (fun a => if axis_enabled st a
                          then [plane (clip_get a (clipping st))] else [])
              [ax_x; ax_y; ax_z]) /\
  raw st = planes_per_axis (axis_enabled st) (configured_constant st) /\
  centered st =
    planes_per_axis (axis_enabled st)
      (fun a => configured_constant st a - coordinate a center).
Proof.
  intros Hn Hf Hm. cbv beta zeta.
  pose proof (normals_fixed_config_valid st Hn) as Hv.
  rewrite (ListControls_updateClippingPlanes_applied st obj m Hf Hm).
  rewrite (StaticControls_updateClippingPlanes_applied st obj m Hv Hf Hm).
  rewrite length_raw_planes, length_centered_planes.
  split; [rewrite <- length_raw_planes; unfold raw_planes; rewrite length_map; reflexivity|].
  split; [reflexivity|]. split; [reflexivity|]. split; [|split; [|split; [|split]]].
  - intros H0. split; apply length_zero_iff_nil;
      [rewrite length_raw_planes|rewrite length_centered_planes]; exact H0.
  - intros Ex Ey Ez Hc.
    rewrite (ListControls_updateClippingPlanes_applied (set_enabled ax_x false st) obj m Hf Hm).
    rewrite (StaticControls_updateClippingPlanes_applied (set_enabled ax_x false st) obj m
               (config_valid_set_enabled _ _ _ Hv) Hf Hm).
    unfold raw_planes, centered_planes, getActiveClippingPlanes, set_enabled. simpl.
    rewrite Ex, Ey, Ez, Hc. simpl.
    split; [|repeat split].
    specialize (Hn ax_x). simpl in Hn. unfold plane_at in *.
    destruct (planes st !! plane (clip_x (clipping st))) as [[n c]|]; [|discriminate Hn].
    simpl in *. injection Hn as ->. rewrite Hc. reflexivity.
  - unfold getActiveClippingPlanes, axis_enabled. cbn [clip_get concat map].
    destruct (enabled (clip_x (clipping st))), (enabled (clip_y (clipping st))),
      (enabled (clip_z (clipping st))); reflexivity.
  - apply raw_planes_per_axis, Hn.
  - apply centered_planes_per_axis.
Qed.

Lemma cube_sliced_normals_fixed : normals_fixed cube_sliced.
Proof. intros []; evaluate; reflexivity. Qed.

Lemma cube_sliced_center :
  Box3_getCenter (setFromObject cube_sliced 0%nat) = mkVector3 2 2 4.
Proof. evaluate. resolve_minmax. f_equal; lra. Qed.

Lemma all_sliced_normals_fixed : normals_fixed all_sliced.
Proof. intros []; evaluate; reflexivity. Qed.

Lemma one_selected_normals_fixed : normals_fixed one_selected.
Proof. intros []; evaluate; reflexivity. Qed.

Lemma one_plane_per_enabled_axis_witness :
  clippingPlanes_of (ListControls.updateClippingPlanes cube_sliced) 0%nat =
    [mkPlane (mkVector3 (-1) 0 0) 5] /\
  clippingPlanes_of (StaticControls.updateClippingPlanes cube_sliced) 0%nat =
    [mkPlane (mkVector3 (-1) 0 0)
       (5 - vx (Box3_getCenter (setFromObject cube_sliced 0%nat)))] /\
  clippingPlanes_of (ListControls.updateClippingPlanes one_selected) 0%nat = [] /\
  clippingPlanes_of (StaticControls.updateClippingPlanes one_selected) 0%nat = [] /\
  clippingPlanes_of (ListControls.updateClippingPlanes all_sliced) 0%nat =
    planes_per_axis (fun _ => true)
      (fun a => match a with ax_x => 5 | ax_y => 6 | ax_z => 7 end) /\
  clippingPlanes_of (StaticControls.updateClippingPlanes all_sliced) 0%nat =
    planes_per_axis (axis_enabled all_sliced)
      (fun a => configured_constant all_sliced a -
                coordinate a (Box3_getCenter (setFromObject all_sliced 0%nat))).
Proof.
  pose proof (one_plane_per_enabled_axis cube_sliced (mkEntry "obj-17-42" 0 false)
    (mkMesh "cube" (file_geometry cube)
       (mkMaterial 0xc8cfd6%N 60 true 1 DoubleSide [3%nat] true) (Some true) None)
    cube_sliced_normals_fixed) as H.
  destruct H as (_ & _ & _ & _ & H & _); [evaluate; reflexivity ..|].
  destruct H as (H1 & H2 & _); [evaluate; reflexivity ..|].
  pose proof (one_plane_per_enabled_axis one_selected (mkEntry "obj-17-42" 0 false)
    (mkMesh "cube" (file_geometry cube)
       (mkMaterial 0xc8cfd6%N 60 true 1 DoubleSide [] true) (Some true) None)
    one_selected_normals_fixed) as H'.
  destruct H' as (_ & _ & _ & H' & _); [evaluate; reflexivity ..|].
  destruct H' as (H3 & H4); [evaluate; reflexivity|].
  edestruct (fun m => one_plane_per_enabled_axis all_sliced (mkEntry "obj-17-42" 0 false)
                        m all_sliced_normals_fixed)
    as (_ & _ & _ & _ & _ & _ & H5 & H6); [evaluate; reflexivity ..|].
  repeat split; assumption.
Defined.

(** C3 fails as stated: in [cube_sliced] only the x axis is enabled, the
    configured constant is 5 and the mesh is selected, and the one plane
    [updateClippingPlanes] of the second script gives its material has the
    offset 3. *)
Lemma centered_plane_offset_differs_from_configured :
  enabled (clip_x (clipping cube_sliced)) = true /\
  enabled (clip_y (clipping cube_sliced)) = false /\
  enabled (clip_z (clipping cube_sliced)) = false /\
  constant (plane_at cube_sliced (plane (clip_x (clipping cube_sliced)))) = 5 /\
  find_selected cube_sliced = Some (mkEntry "obj-17-42" 0 false) /\
  clippingPlanes_of (StaticControls.updateClippingPlanes cube_sliced) 0%nat =
    [mkPlane (mkVector3 (-1) 0 0) 3] /\
  map constant (clippingPlanes_of (StaticControls.updateClippingPlanes cube_sliced) 0%nat)
    <> [5].
Proof.
  assert (E : clippingPlanes_of (StaticControls.updateClippingPlanes cube_sliced) 0%nat =
              [mkPlane (mkVector3 (-1) 0 0) 3]).
  { evaluate. resolve_minmax. repeat f_equal. lra. }
  repeat split; try (evaluate; reflexivity).
  - exact E.
  - rewrite E. simpl. intros H. injection H as H. lra.
Qed.

(** ** The two computations of the planes *)

(** In the core script the plane is put through a point that has the slider
    value on the axis of the plane, so its constant is the slider value. *)
Lemma Core_plane_constant a val center :
  Plane_setFromNormalAndCoplanarPoint (axis_normal a) (Core.coplanar_point a val center)
  = mkPlane (axis_normal a) val.
Proof.
  unfold Plane_setFromNormalAndCoplanarPoint, Vector3_dot.
  f_equal. destruct a; simpl; ring.
Qed.

(** C5.  The two versions of [updateClippingPlanes] in [main.js] are not
    equivalent: on [cube_sliced], whose selected mesh has its centre at
    (2,2,4), with the x axis enabled and the constant 5, the first gives the
    material the plane of offset 5 and the second the plane of offset 3. *)
Theorem raw_and_centered_planes_differ :
  exists (st : State) (obj : Entry),
    find_selected st = Some obj /\
    Box3_getCenter (setFromObject st (entry_mesh obj)) = mkVector3 2 2 4 /\
    enabled (clip_x (clipping st)) = true /\
    constant (plane_at st (plane (clip_x (clipping st)))) = 5 /\
    clippingPlanes_of (ListControls.updateClippingPlanes st) (entry_mesh obj) =
      [mkPlane (mkVector3 (-1) 0 0) 5] /\
    clippingPlanes_of (StaticControls.updateClippingPlanes st) (entry_mesh obj) =
      [mkPlane (mkVector3 (-1) 0 0) 3] /\
    clippingPlanes_of (ListControls.updateClippingPlanes st) (entry_mesh obj) <>
    clippingPlanes_of (StaticControls.updateClippingPlanes st) (entry_mesh obj).
Proof.
  exists cube_sliced, (mkEntry "obj-17-42" 0 false).
  assert (Ea : clippingPlanes_of (ListControls.updateClippingPlanes cube_sliced) 0%nat =
               [mkPlane (mkVector3 (-1) 0 0) 5]) by (evaluate; reflexivity).
  assert (Eb : clippingPlanes_of (StaticControls.updateClippingPlanes cube_sliced) 0%nat =
               [mkPlane (mkVector3 (-1) 0 0) 3]).
  { evaluate. resolve_minmax. repeat f_equal. lra. }
  split; [evaluate; reflexivity|].
  split; [exact cube_sliced_center|].
  split; [evaluate; reflexivity|].
  split; [evaluate; reflexivity|].
  split; [exact Ea|]. split; [exact Eb|].
  simpl entry_mesh. rewrite Ea, Eb. intros H. injection H as H. lra.
Qed.

(** ** The paths that register once and show one mesh *)

Lemma Core_clip_axis_frame a center ps st :
  let st' := snd (Core.clip_axis a center (ps, st)) in
  heap st' = heap st /\ meshes st' = meshes st /\
  selectedMeshId st' = selectedMeshId st /\ objects_list st' = objects_list st.
Proof.
  unfold Core.clip_axis. destruct (enabled (clip_get a (clipping st))); simpl; auto.
Qed.

Lemma Core_clip_target_frame st o :
  let st' := Core.clip_target st o in
  meshes st' = meshes st /\ selectedMeshId st' = selectedMeshId st /\
  objects_list st' = objects_list st /\
  exists f, heap st' = alter (fun m => with_material (f m) m) (entry_mesh o) (heap st).
Proof.
  unfold Core.clip_target.
  set (c := Box3_getCenter (setFromObject st (entry_mesh o))).
  pose proof (Core_clip_axis_frame ax_x c [] st) as Hx.
  destruct (Core.clip_axis ax_x c ([], st)) as (px & sx). simpl in Hx.
  pose proof (Core_clip_axis_frame ax_y c px sx) as Hy.
  destruct (Core.clip_axis ax_y c (px, sx)) as (py & sy). simpl in Hy.
  pose proof (Core_clip_axis_frame ax_z c py sy) as Hz.
  destruct (Core.clip_axis ax_z c (py, sy)) as (pz & sz). simpl in Hz.
  destruct Hx as (Hx1 & Hx2 & Hx3 & Hx4), Hy as (Hy1 & Hy2 & Hy3 & Hy4),
    Hz as (Hz1 & Hz2 & Hz3 & Hz4).
  simpl. repeat split; try congruence.
  exists (fun m => with_clippingPlanes pz (mesh_material m)).
  rewrite Hz1, Hy1, Hx1. reflexivity.
Qed.

Lemma visible_alter_material (f : Mesh -> Material) r (h : list Mesh) i :
  (mesh_visible <$> alter (fun m => with_material (f m) m) r h !! i) =
  (mesh_visible <$> h !! i).
Proof.
  rewrite list_lookup_alter. destruct (decide (r = i)) as [->|_]; [|reflexivity].
  destruct (h !! i); reflexivity.
Qed.

Lemma Core_updateClippingPlanes_frame st :
  let st' := Core.updateClippingPlanes st in
  meshes st' = meshes st /\ selectedMeshId st' = selectedMeshId st /\
  objects_list st' = objects_list st /\
  forall i, (mesh_visible <$> heap st' !! i) = (mesh_visible <$> heap st !! i).
Proof.
  assert (Hfold : forall l s,
    meshes (fold_left Core.clip_target l s) = meshes s /\
    selectedMeshId (fold_left Core.clip_target l s) = selectedMeshId s /\
    objects_list (fold_left Core.clip_target l s) = objects_list s /\
    forall i, (mesh_visible <$> heap (fold_left Core.clip_target l s) !! i)
              = (mesh_visible <$> heap s !! i)).
  { induction l as [|o l IH]; intros s; [simpl; auto|].
    simpl. destruct (IH (Core.clip_target s o)) as (I1 & I2 & I3 & I4).
    destruct (Core_clip_target_frame s o) as (F1 & F2 & F3 & f & F4).
    repeat split; try congruence.
    intros i. rewrite I4, F4. apply visible_alter_material. }
  unfold Core.updateClippingPlanes.
  destruct (falsy_id (selectedMeshId st)).
  - destruct (meshes st) as [|o l] eqn:E; [simpl; auto|].
    rewrite <- E at 2. apply Hfold.
  - destruct (find_selected st); [apply Hfold|simpl; auto].
Qed.

Lemma StaticControls_updateClippingPlanes_frame st :
  let st' := StaticControls.updateClippingPlanes st in
  meshes st' = meshes st /\ selectedMeshId st' = selectedMeshId st /\
  objects_list st' = objects_list st /\
  forall i, (mesh_visible <$> heap st' !! i) = (mesh_visible <$> heap st !! i).
Proof.
  unfold StaticControls.updateClippingPlanes.
  destruct (find_selected st) as [obj|]; [|simpl; auto].
  unfold alloc_plane.
  destruct (enabled (clip_x (clipping st))); simpl;
    destruct (enabled (clip_y (clipping st))); simpl;
    destruct (enabled (clip_z (clipping st))); simpl;
    (repeat split; intros i;
     apply (visible_alter_material (fun m => with_clippingPlanes _ (mesh_material m)))).
Qed.

(** The upload of the core script appends one entry to the registry. *)
Lemma Core_handleFileUpload_registers_once st f now rnd :
  meshes (Core.handleFileUpload (Some f) now rnd st) =
  meshes st ++ [mkEntry (make_id now rnd) (length (heap st)) false].
Proof.
  unfold Core.handleFileUpload, Core.cameraPosition, alloc_mesh, Core.addMeshToList.
  cbv beta iota zeta. autorewrite with frame.
  assert (Hreset : forall bbox l s,
            meshes (fold_left (Core.reset_axis bbox) l s) = meshes s).
  { induction l as [|a l IH]; intros s; [reflexivity|].
    simpl. rewrite IH. unfold Core.reset_axis, alloc_plane.
    destruct bbox as [[mn mx]|]; reflexivity. }
  rewrite Hreset, Core_selectMesh_eq.
  match goal with
  | |- meshes (Core.updateClippingPlanes ?s) = _ =>
      destruct (Core_updateClippingPlanes_frame s) as (-> & _)
  end.
  simpl. autorewrite with frame. reflexivity.
Qed.

(** When the entries of one mesh carry one id, [selectMesh] of the second
    script and of the core script shows the meshes of the entries that carry
    the id and hides the meshes of all other entries. *)
Lemma select_shows_entries_of_id id st :
  (forall o o', In o (meshes st) -> In o' (meshes st) ->
                entry_mesh o = entry_mesh o' -> entry_id o = entry_id o') ->
  forall o, In o (meshes st) -> is_Some (heap st !! entry_mesh o) ->
    entry_visible (StaticControls.selectMesh id st) o = String.eqb (entry_id o) id /\
    entry_visible (Core.selectMesh id st) o = String.eqb (entry_id o) id.
Proof.
  intros Hcons o Ho (m & Hm).
  set (w := fun r : mref =>
              match find (fun o' => Nat.eqb (entry_mesh o') r) (meshes st) with
              | Some o' => Some (String.eqb (entry_id o') id)
              | None => Some false
              end).
  assert (Hw : forall o', In o' (meshes st) ->
                 w (entry_mesh o') = Some (String.eqb (entry_id o') id)).
  { intros o' Ho'. unfold w.
    destruct (find (fun o0 => Nat.eqb (entry_mesh o0) (entry_mesh o')) (meshes st))
      as [o2|] eqn:E.
    - apply find_some in E. destruct E as (Ho2 & E). apply Nat.eqb_eq in E.
      rewrite (Hcons o2 o' Ho2 Ho' E). reflexivity.
    - exfalso. apply (find_none _ _ E o') in Ho'.
      rewrite Nat.eqb_refl in Ho'. discriminate Ho'. }
  assert (Hsweep : forall g,
            (forall o' m', In o' (meshes st) -> g o' m' = Some (String.eqb (entry_id o') id)) ->
            (mesh_visible <$> heap (sweep g (meshes st) st) !! entry_mesh o)
            = Some (Some (String.eqb (entry_id o) id))).
  { intros g Hg.
    destruct (sweep_only_visible g (meshes st) st) as (_ & _ & Hs).
    destruct (Hs _ _ Hm) as (m' & Hm' & _). rewrite Hm'. simpl. f_equal.
    rewrite <- (Hw o Ho).
    apply (sweep_sets g w (meshes st) st); [|exact Ho|exact Hm'].
    intros o' m0 Ho'. rewrite (Hg o' m0 Ho'), (Hw o' Ho'). reflexivity. }
  assert (Hread : forall s',
            (mesh_visible <$> heap s' !! entry_mesh o)
              = Some (Some (String.eqb (entry_id o) id)) ->
            entry_visible s' o = String.eqb (entry_id o) id).
  { intros s' E. unfold entry_visible.
    destruct (heap s' !! entry_mesh o) as [m'|]; [|discriminate E].
    simpl in E. injection E as ->. simpl.
    destruct (String.eqb (entry_id o) id); reflexivity. }
  split; apply Hread.
  - rewrite StaticControls_selectMesh_eq.
    match goal with
    | |- context [StaticControls.updateClippingPlanes ?s] =>
        destruct (StaticControls_updateClippingPlanes_frame s) as (_ & _ & _ & ->)
    end.
    simpl. apply Hsweep. intros o' m' _.
    destruct (String.eqb (entry_id o') id); reflexivity.
  - rewrite Core_selectMesh_eq.
    match goal with
    | |- context [Core.updateClippingPlanes ?s] =>
        destruct (Core_updateClippingPlanes_frame s) as (_ & _ & _ & ->)
    end.
    simpl. apply Hsweep. intros o' m' _. reflexivity.
Qed.
